(** * vid-analysis: the upload / poll / generate / dispatch pipeline

    A shallow embedding of [src/api.ts] ([uploadFile], [generateContent]) and
    of the pipeline part of [src/App.tsx] ([setTimecodes], [onModeSelect],
    [uploadVideo] and the three handlers of the Chart sub-mode controls),
    followed by the properties of the specification that concern them.

    Conventions.
    - React state is the record [AppState]; a setter call is a record update.
      An event handler reads the state of the render it was created in, and
      every value it reads is read before its first [await], so a handler is
      a function of the state at the moment it is called.
    - The remote service is a script: the list of answers it will give to the
      status queries of one upload, in order.
    - Everything the code sends to the remote service is appended to a trace
      of [event]s.  [console.log] output is left out of the trace.
    - An [async] function that throws is an [outcome] [Thrown]; one whose
      [await] is never answered is [Unsettled]. *)

From Stdlib Require Import Bool Arith List Lia.
From Stdlib Require Import Ascii String.
From Stdlib Require Floats.PrimFloat.
Import ListNotations.

Open Scope string_scope.
Open Scope list_scope.

(** ** Results of calls *)

(** What a JavaScript exception carries, as far as this program can tell
    them apart: [new Error(msg)] thrown by the code itself, a [TypeError]
    raised by the runtime, and the rejection of a request to the service. *)
Inductive exn : Type :=
| Error (msg : string)
| TypeError (msg : string)
| TransportError.

Inductive outcome (A : Type) : Type :=
| Returned (a : A)
| Thrown (e : exn)
| Unsettled.

Arguments Returned {A} a.
Arguments Thrown {A} e.
Arguments Unsettled {A}.

(** ** Property lookup on an object literal

    [({k1: v1, ...})[key]] looks among the own properties of the literal and
    then on [Object.prototype], which every object literal inherits from.
    The members of [Object.prototype] are those of ECMA-262 (with Annex B). *)

Inductive ObjectPrototypeMember : Type :=
| P_constructor
| P_hasOwnProperty
| P_isPrototypeOf
| P_propertyIsEnumerable
| P_toLocaleString
| P_toString
| P_valueOf
| P_proto
| P_defineGetter
| P_defineSetter
| P_lookupGetter
| P_lookupSetter.

Definition object_prototype : list (string * ObjectPrototypeMember) :=
  [ ("constructor", P_constructor);
    ("hasOwnProperty", P_hasOwnProperty);
    ("isPrototypeOf", P_isPrototypeOf);
    ("propertyIsEnumerable", P_propertyIsEnumerable);
    ("toLocaleString", P_toLocaleString);
    ("toString", P_toString);
    ("valueOf", P_valueOf);
    ("__proto__", P_proto);
    ("__defineGetter__", P_defineGetter);
    ("__defineSetter__", P_defineSetter);
    ("__lookupGetter__", P_lookupGetter);
    ("__lookupSetter__", P_lookupSetter) ].

Fixpoint assoc {A} (key : string) (props : list (string * A)) : option A :=
  match props with
  | [] => None
  | (k, v) :: rest => if String.eqb k key then Some v else assoc key rest
  end.

Inductive property (A : Type) : Type :=
| Own (a : A)
| Inherited (m : ObjectPrototypeMember)
| Undefined.

Arguments Own {A} a.
Arguments Inherited {A} m.
Arguments Undefined {A}.

Definition js_get {A} (own : list (string * A)) (key : string) : property A :=
  match assoc key own with
  | Some v => Own v
  | None =>
      match assoc key object_prototype with
      | Some m => Inherited m
      | None => Undefined
      end
  end.

(** [Object.keys(o)], in property order. *)
Definition keys {A} (own : list (string * A)) : list string := map fst own.

(** What [o[key](arg)] does when [key] is found on [Object.prototype], [o]
    is an ordinary object and [arg] is an ordinary object or [undefined]:
    the accessor [__proto__] yields an object, which is not callable;
    [__defineGetter__] and [__defineSetter__] reject their missing second
    argument; the other members compute a value and touch nothing. *)
Definition call_inherited (m : ObjectPrototypeMember) : outcome unit :=
  match m with
  | P_proto => Thrown (TypeError "is not a function")
  | P_defineGetter | P_defineSetter =>
      Thrown (TypeError "Getter or setter must be a function")
  | _ => Returned tt
  end.

(** ** [text.replace(/\\'/g, "'")]

    A global replace scans from the left; where a backslash is followed by
    an apostrophe the two characters are replaced by one apostrophe and the
    scan resumes behind them, otherwise the character is kept. *)
Definition backslash : ascii := "\"%char.
Definition apostrophe : ascii := "'"%char.

Fixpoint replace_escaped_apostrophes (s : string) : string :=
  match s with
  | EmptyString => EmptyString
  | String c rest =>
      match rest with
      | String d rest' =>
          if (Ascii.eqb c backslash && Ascii.eqb d apostrophe)%bool
          then String apostrophe (replace_escaped_apostrophes rest')
          else String c (replace_escaped_apostrophes rest)
      | EmptyString => String c EmptyString
      end
  end.

(** ** Data model *)

(** A JavaScript [number] is an IEEE 754 binary64 value. *)
Definition number : Type := PrimFloat.float.

(** [interface Timecode] of [App.tsx]. *)
Record Timecode : Type := mkTimecode {
  time : string;
  text : option string;
  objects : option (list string);
  value : option number
}.

(** [{...t, text: x}] *)
Definition with_text (t : Timecode) (x : string) : Timecode :=
  {| time := time t; text := Some x; objects := objects t; value := value t |}.

(** The browser's [File]: the two fields the pipeline reads. *)
Record File : Type := mkFile {
  name : string;
  type : string
}.

(** The file object of the service, as [client.files.upload] and
    [client.files.get] return it. *)
Record RemoteFile : Type := mkRemoteFile {
  remoteName : string;
  uri : string;
  mimeType : string;
  state : string
}.

Definition with_state (f : RemoteFile) (st : string) : RemoteFile :=
  {| remoteName := remoteName f; uri := uri f; mimeType := mimeType f;
     state := st |}.

Definition PROCESSING : string := "PROCESSING".
Definition FAILED : string := "FAILED".
Definition ACTIVE : string := "ACTIVE".

(** The argument object of the three tools, [{timecodes: Timecode[]}], and a
    function call of a response. *)
Record Args : Type := mkArgs { timecodes : list Timecode }.

Record FunctionCall : Type := mkCall {
  callName : string;
  callArgs : Args
}.

(** The part of a generation response the program reads:
    [resp.functionCalls], which may be absent. *)
Record Response : Type := mkResponse {
  functionCalls : option (list FunctionCall)
}.

(** Requests and timers, in the order they are issued. *)
Inductive event : Type :=
| FilesUpload (displayName : string)
| FilesGet (fileName : string)
| SetTimeout (ms : nat)
| ModelsGenerateContent (promptText : string) (tools : list string)
                        (fileMimeType fileUri : string).

Definition is_get (e : event) : bool :=
  match e with FilesGet _ => true | _ => false end.

Definition is_upload (e : event) : bool :=
  match e with FilesUpload _ => true | _ => false end.

Definition is_generate (e : event) : bool :=
  match e with ModelsGenerateContent _ _ _ _ => true | _ => false end.

Definition status_queries (tr : list event) : nat :=
  List.length (filter is_get tr).

(** ** Application state: the [useState] cells of [App] that the pipeline
    reads or writes. *)
Definition ModeKey : Type := string.

Record AppState : Type := mkApp {
  vidUrl : option string;
  file : option RemoteFile;
  timecodeList : option (list Timecode);
  selectedMode : ModeKey;
  activeMode : option ModeKey;
  isLoading : bool;
  isLoadingVideo : bool;
  videoError : bool;
  customPrompt : string;
  chartMode : option string;
  chartPrompt : string;
  chartLabel : string;
  searchQuery : string
}.

Definition setVidUrl (v : option string) (s : AppState) : AppState :=
  mkApp v (file s) (timecodeList s) (selectedMode s) (activeMode s)
        (isLoading s) (isLoadingVideo s) (videoError s) (customPrompt s)
        (chartMode s) (chartPrompt s) (chartLabel s) (searchQuery s).

Definition setFile (v : option RemoteFile) (s : AppState) : AppState :=
  mkApp (vidUrl s) v (timecodeList s) (selectedMode s) (activeMode s)
        (isLoading s) (isLoadingVideo s) (videoError s) (customPrompt s)
        (chartMode s) (chartPrompt s) (chartLabel s) (searchQuery s).

Definition setTimecodeList (v : option (list Timecode)) (s : AppState)
  : AppState :=
  mkApp (vidUrl s) (file s) v (selectedMode s) (activeMode s)
        (isLoading s) (isLoadingVideo s) (videoError s) (customPrompt s)
        (chartMode s) (chartPrompt s) (chartLabel s) (searchQuery s).

Definition setSelectedMode (v : ModeKey) (s : AppState) : AppState :=
  mkApp (vidUrl s) (file s) (timecodeList s) v (activeMode s)
        (isLoading s) (isLoadingVideo s) (videoError s) (customPrompt s)
        (chartMode s) (chartPrompt s) (chartLabel s) (searchQuery s).

Definition setActiveMode (v : option ModeKey) (s : AppState) : AppState :=
  mkApp (vidUrl s) (file s) (timecodeList s) (selectedMode s) v
        (isLoading s) (isLoadingVideo s) (videoError s) (customPrompt s)
        (chartMode s) (chartPrompt s) (chartLabel s) (searchQuery s).

Definition setIsLoading (v : bool) (s : AppState) : AppState :=
  mkApp (vidUrl s) (file s) (timecodeList s) (selectedMode s) (activeMode s)
        v (isLoadingVideo s) (videoError s) (customPrompt s)
        (chartMode s) (chartPrompt s) (chartLabel s) (searchQuery s).

Definition setIsLoadingVideo (v : bool) (s : AppState) : AppState :=
  mkApp (vidUrl s) (file s) (timecodeList s) (selectedMode s) (activeMode s)
        (isLoading s) v (videoError s) (customPrompt s)
        (chartMode s) (chartPrompt s) (chartLabel s) (searchQuery s).

Definition setVideoError (v : bool) (s : AppState) : AppState :=
  mkApp (vidUrl s) (file s) (timecodeList s) (selectedMode s) (activeMode s)
        (isLoading s) (isLoadingVideo s) v (customPrompt s)
        (chartMode s) (chartPrompt s) (chartLabel s) (searchQuery s).

Definition setCustomPrompt (v : string) (s : AppState) : AppState :=
  mkApp (vidUrl s) (file s) (timecodeList s) (selectedMode s) (activeMode s)
        (isLoading s) (isLoadingVideo s) (videoError s) v
        (chartMode s) (chartPrompt s) (chartLabel s) (searchQuery s).

Definition setChartMode (v : option string) (s : AppState) : AppState :=
  mkApp (vidUrl s) (file s) (timecodeList s) (selectedMode s) (activeMode s)
        (isLoading s) (isLoadingVideo s) (videoError s) (customPrompt s)
        v (chartPrompt s) (chartLabel s) (searchQuery s).

Definition setChartPrompt (v : string) (s : AppState) : AppState :=
  mkApp (vidUrl s) (file s) (timecodeList s) (selectedMode s) (activeMode s)
        (isLoading s) (isLoadingVideo s) (videoError s) (customPrompt s)
        (chartMode s) v (chartLabel s) (searchQuery s).

Definition setChartLabel (v : string) (s : AppState) : AppState :=
  mkApp (vidUrl s) (file s) (timecodeList s) (selectedMode s) (activeMode s)
        (isLoading s) (isLoadingVideo s) (videoError s) (customPrompt s)
        (chartMode s) (chartPrompt s) v (searchQuery s).

Definition setSearchQuery (v : string) (s : AppState) : AppState :=
  mkApp (vidUrl s) (file s) (timecodeList s) (selectedMode s) (activeMode s)
        (isLoading s) (isLoadingVideo s) (videoError s) (customPrompt s)
        (chartMode s) (chartPrompt s) (chartLabel s) v.

(** ** Tool handlers and dispatch ([App.tsx], lines 90-94 and 135-147) *)

Definition traverse {A B} (f : A -> option B) : list A -> option (list B) :=
  fix go (l : list A) : option (list B) :=
    match l with
    | [] => Some []
    | x :: rest =>
        match f x with
        | None => None
        | Some y =>
            match go rest with
            | None => None
            | Some ys => Some (y :: ys)
            end
        end
    end.

(** The callback of [timecodes.map]: [t.text!.replace(...)] reads [replace]
    off [t.text], which fails when the text is absent. *)
Definition normalize (t : Timecode) : option Timecode :=
  match text t with
  | Some x => Some (with_text t (replace_escaped_apostrophes x))
  | None => None
  end.

Definition handler : Type := Args -> AppState -> outcome unit * AppState.

Definition setTimecodes : handler := fun a s =>
  match traverse normalize (timecodes a) with
  | Some l => (Returned tt, setTimecodeList (Some l) s)
  | None =>
      (Thrown (TypeError
                 "Cannot read properties of undefined (reading 'replace')"),
       s)
  end.

Definition setTimecodesWithNumericValues : handler := fun a s =>
  (Returned tt, setTimecodeList (Some (timecodes a)) s).

(** The object literal of lines 138-146. *)
Definition handlers : list (string * handler) :=
  [ ("set_timecodes", setTimecodes);
    ("set_timecodes_with_objects", setTimecodes);
    ("set_timecodes_with_numeric_values", setTimecodesWithNumericValues) ].

Definition declared_tools : list string := keys handlers.

(** [handlers[call.name](call.args)] *)
Definition invoke (call : FunctionCall) (s : AppState)
  : outcome unit * AppState :=
  match js_get handlers (callName call) with
  | Own h => h (callArgs call) s
  | Inherited m => (call_inherited m, s)
  | Undefined => (Thrown (TypeError "is not a function"), s)
  end.

(** [resp.functionCalls?.[0]] *)
Definition first_call (resp : Response) : option FunctionCall :=
  match functionCalls resp with
  | Some (call :: _) => Some call
  | _ => None
  end.

(** Lines 135-147: [const call = ...; if (call) {...}]. *)
Definition dispatch (resp : Response) (s : AppState)
  : outcome unit * AppState :=
  match first_call resp with
  | Some call => invoke call s
  | None => (Returned tt, s)
  end.

(** ** Answers of the remote service *)

Inductive reply (A : Type) : Type :=
| Resolves (a : A)
| Rejects.

Arguments Resolves {A} a.
Arguments Rejects {A}.

(** The service as one upload sees it: the answer to [client.files.upload]
    and the states it will report to the successive [client.files.get]. *)
Record Remote : Type := mkRemote {
  uploadReply : reply RemoteFile;
  statusReplies : list (reply string)
}.

(** ** [uploadFile] ([api.ts], lines 52-82) *)

Definition poll_result : Type :=
  (outcome RemoteFile * list event * list (reply string))%type.

(** Lines 76-81: what follows the loop. *)
Definition after_loop (getFile : RemoteFile) : outcome RemoteFile :=
  if String.eqb (state getFile) FAILED
  then Thrown (Error "File processing failed.")
  else Returned getFile.

(** The [while] loop of lines 65-75 and the lines after it.  [getFile] is
    the last file object received; [script] holds the answers still to come.
    Each turn of the loop sends one query and, once it is answered, sets a
    timer of 5000 ms. *)
Fixpoint while_processing (uploadedFile getFile : RemoteFile)
    (script : list (reply string)) {struct script} : poll_result :=
  if String.eqb (state getFile) PROCESSING then
    match script with
    | [] => (Unsettled, [FilesGet (remoteName uploadedFile)], [])
    | Rejects :: rest =>
        (Thrown TransportError, [FilesGet (remoteName uploadedFile)], rest)
    | Resolves st :: rest =>
        let '(o, tr, unread) :=
          while_processing uploadedFile (with_state uploadedFile st) rest in
        (o, FilesGet (remoteName uploadedFile) :: SetTimeout 5000 :: tr,
         unread)
    end
  else (after_loop getFile, [], script).

Definition uploadFile (f : File) (r : Remote) : poll_result :=
  match uploadReply r with
  | Rejects => (Thrown TransportError, [FilesUpload (name f)], statusReplies r)
  | Resolves uploadedFile =>
      match statusReplies r with
      | [] =>
          (Unsettled,
           [FilesUpload (name f); FilesGet (remoteName uploadedFile)], [])
      | Rejects :: rest =>
          (Thrown TransportError,
           [FilesUpload (name f); FilesGet (remoteName uploadedFile)], rest)
      | Resolves st :: rest =>
          let '(o, tr, unread) :=
            while_processing uploadedFile (with_state uploadedFile st) rest in
          (o,
           FilesUpload (name f) :: FilesGet (remoteName uploadedFile) :: tr,
           unread)
      end
  end.

(** ** Modes and the prompt ([App.tsx], lines 97-119)

    [./modes] is outside the sources at hand, so the table is a parameter of
    the development.  A mode's [prompt] is a string or a function of one
    argument; a mode with [subModes] carries them as an object literal. *)

(** What a prompt function can be handed by lines 109-115: a string, the
    [undefined] of a sub-mode that does not exist, or a member found on
    [Object.prototype]. *)
Inductive JsValue : Type :=
| Str (s : string)
| Undef
| Member (m : ObjectPrototypeMember).

Definition of_property (p : property string) : JsValue :=
  match p with
  | Own s => Str s
  | Inherited m => Member m
  | Undefined => Undef
  end.

Inductive PromptSpec : Type :=
| PromptText (p : string)
| PromptFn (f : JsValue -> string).

Record ModeConfig : Type := mkMode {
  prompt : PromptSpec;
  subModes : option (list (string * string))
}.

(** [ToPropertyKey] of a state cell of type [string | undefined]. *)
Definition property_key (k : option string) : string :=
  match k with
  | Some x => x
  | None => "undefined"
  end.

(** [x === 'Custom'] for such a cell. *)
Definition is_Custom (k : option string) : bool :=
  match k with
  | Some x => String.eqb x "Custom"
  | None => false
  end.

Definition isCustomMode (s : AppState) : bool :=
  String.eqb (selectedMode s) "Custom".

Definition isChartMode (s : AppState) : bool :=
  String.eqb (selectedMode s) "Chart".

Definition isCustomChartMode (s : AppState) : bool :=
  isChartMode s && is_Custom (chartMode s).

(** The three controls of the Chart panel (lines 300-325): a click on a
    sub-mode button calls [setChartMode(mode)], a change of the text field
    calls [setChartPrompt(e.target.value)], and a focus of the text field
    calls [setChartMode('Custom')]. *)
Inductive ChartControl : Type :=
| ClickSubMode (mode : string)
| ChangeText (v : string)
| FocusText.

Definition chart_control (c : ChartControl) (s : AppState) : AppState :=
  match c with
  | ClickSubMode mode => setChartMode (Some mode) s
  | ChangeText v => setChartPrompt v s
  | FocusText => setChartMode (Some "Custom") s
  end.

Definition chart_controls (cs : list ChartControl) (s : AppState) : AppState :=
  fold_left (fun st c => chart_control c st) cs s.

Section App.

(** [import modes from './modes'], in property order.  [ModeKey] is
    [keyof typeof modes]: callers pass own keys of the table. *)
Variable modes : list (string * ModeConfig).

(** [URL.createObjectURL] *)
Variable createObjectURL : File -> string.

(** [Object.keys(modes.Chart.subModes)] *)
Definition chartModes : list string :=
  match assoc "Chart" modes with
  | Some cfg =>
      match subModes cfg with
      | Some sm => keys sm
      | None => []
      end
  | None => []
  end.

(** The initial values of the [useState] cells. *)
Definition initial_state : AppState :=
  {| vidUrl := None;
     file := None;
     timecodeList := None;
     selectedMode := property_key (hd_error (keys modes));
     activeMode := None;
     isLoading := false;
     isLoadingVideo := false;
     videoError := false;
     customPrompt := "";
     chartMode := hd_error chartModes;
     chartPrompt := "";
     chartLabel := "";
     searchQuery := "" |}.

(** Lines 109-111: the argument of the Chart prompt function. *)
Definition chartInput (sm : list (string * string)) (s : AppState) : JsValue :=
  if isCustomChartMode s
  then Str (chartPrompt s)
  else of_property (js_get sm (property_key (chartMode s))).

(** Lines 103-119. *)
Definition promptText (mode : ModeKey) (s : AppState) : outcome string :=
  match assoc mode modes with
  | None =>
      Thrown (TypeError
                "Cannot read properties of undefined (reading 'prompt')")
  | Some modeConfig =>
      match prompt modeConfig with
      | PromptFn f =>
          match subModes modeConfig with
          | Some sm => Returned (f (chartInput sm s))
          | None => Returned (f (Str (customPrompt s)))
          end
      | PromptText p => Returned p
      end
  end.

(** ** [generateContent] ([api.ts], lines 21-50)

    The request object is built before the call is made; building it reads
    [file.mimeType], and [file] is [null] until an upload has succeeded. *)
Definition generateContent (text : string) (tools : list string)
    (f : option RemoteFile) : outcome event :=
  match f with
  | None =>
      Thrown (TypeError "Cannot read properties of null (reading 'mimeType')")
  | Some uploaded =>
      Returned (ModelsGenerateContent text tools (mimeType uploaded)
                                      (uri uploaded))
  end.

(** ** [onModeSelect] ([App.tsx], lines 97-151) *)

(** Up to the [await] of line 121: the request that is sent, if any. *)
Definition onModeSelect_request (mode : ModeKey) (s : AppState)
  : outcome event * AppState :=
  let s1 :=
    setChartLabel (chartPrompt s)
      (setIsLoading true (setActiveMode (Some mode) (setSearchQuery "" s))) in
  match promptText mode s with
  | Returned p => (generateContent p declared_tools (file s), s1)
  | Thrown e => (Thrown e, s1)
  | Unsettled => (Unsettled, s1)
  end.

(** From the answer on: lines 135-150. *)
Definition onModeSelect_resume (r : reply Response) (s : AppState)
  : outcome unit * AppState :=
  match r with
  | Rejects => (Thrown TransportError, s)
  | Resolves resp =>
      match dispatch resp s with
      | (Returned _, s1) => (Returned tt, setIsLoading false s1)
      | (o, s1) => (o, s1)
      end
  end.

Definition onModeSelect (mode : ModeKey) (r : reply Response) (s : AppState)
  : outcome unit * AppState * list event :=
  match onModeSelect_request mode s with
  | (Returned request, s1) =>
      let '(o, s2) := onModeSelect_resume r s1 in (o, s2, [request])
  | (Thrown e, s1) => (Thrown e, s1, [])
  | (Unsettled, s1) => (Unsettled, s1, [])
  end.

(** ** [uploadVideo] ([App.tsx], lines 153-182) *)

Definition uploadVideo (files : list File) (r : Remote) (s : AppState)
  : outcome unit * AppState * list event :=
  let s1 := setVideoError false (setIsLoadingVideo true s) in
  match files with
  | [] => (Returned tt, setIsLoadingVideo false s1, [])
  | droppedFile :: _ =>
      if negb (String.prefix "video/" (type droppedFile)) then
        (Returned tt,
         setVidUrl None (setIsLoadingVideo false (setVideoError true s1)),
         [])
      else
        let s2 := setVidUrl (Some (createObjectURL droppedFile)) s1 in
        match uploadFile droppedFile r with
        | (Returned res, tr, _) =>
            (Returned tt, setIsLoadingVideo false (setFile (Some res) s2), tr)
        | (Thrown _, tr, _) =>
            (Returned tt, setIsLoadingVideo false (setVideoError true s2), tr)
        | (Unsettled, tr, _) => (Unsettled, s2, tr)
        end
  end.

End App.

(** ** Calls of [uploadVideo] in flight

    [uploadVideo] is [async]: it runs until its next [await], and other
    handlers run before it is resumed.  A [Run] is one call suspended at an
    [await], with the answers its upload will still receive; [resume] takes
    it from the arrival of the awaited answer to its next [await] (or its
    end), and yields the requests it sends and the state setters it calls. *)

Inductive Continuation : Type :=
| AwaitUpload                                   (* api.ts, line 54 *)
| AwaitFirstGet (uploadedFile : RemoteFile)     (* api.ts, line 62 *)
| AwaitLoopGet (uploadedFile : RemoteFile)      (* api.ts, line 66 *)
| AwaitTimer (uploadedFile getFile : RemoteFile) (* api.ts, line 72 *)
| Finished (o : outcome RemoteFile).

Record Run : Type := mkRun {
  cont : Continuation;
  remote : Remote
}.

Definition effect : Type := AppState -> AppState.

Definition no_effect : effect := fun s => s.

(** [App.tsx], lines 176-180: what follows [await uploadFile(...)]. *)
Definition settle (o : outcome RemoteFile) : effect :=
  match o with
  | Returned res => fun s => setIsLoadingVideo false (setFile (Some res) s)
  | Thrown _ => fun s => setIsLoadingVideo false (setVideoError true s)
  | Unsettled => no_effect
  end.

Definition finish (o : outcome RemoteFile) (r : Remote)
  : Run * list event * effect :=
  (mkRun (Finished o) r, [], settle o).

(** The loop test of line 65, with [getFile] just assigned. *)
Definition loop_test (uploadedFile getFile : RemoteFile) (r : Remote)
  : Run * list event * effect :=
  if String.eqb (state getFile) PROCESSING
  then (mkRun (AwaitLoopGet uploadedFile) r,
        [FilesGet (remoteName uploadedFile)], no_effect)
  else finish (after_loop getFile) r.

Definition unread (r : Remote) (rest : list (reply string)) : Remote :=
  mkRemote (uploadReply r) rest.

Definition resume (run : Run) : option (Run * list event * effect) :=
  let r := remote run in
  match cont run with
  | AwaitUpload =>
      match uploadReply r with
      | Rejects => Some (finish (Thrown TransportError) r)
      | Resolves uploadedFile =>
          Some (mkRun (AwaitFirstGet uploadedFile) r,
                [FilesGet (remoteName uploadedFile)], no_effect)
      end
  | AwaitFirstGet uploadedFile =>
      match statusReplies r with
      | [] => None
      | Rejects :: rest => Some (finish (Thrown TransportError) (unread r rest))
      | Resolves st :: rest =>
          Some (loop_test uploadedFile (with_state uploadedFile st)
                          (unread r rest))
      end
  | AwaitLoopGet uploadedFile =>
      match statusReplies r with
      | [] => None
      | Rejects :: rest => Some (finish (Thrown TransportError) (unread r rest))
      | Resolves st :: rest =>
          Some (mkRun (AwaitTimer uploadedFile (with_state uploadedFile st))
                      (unread r rest),
                [SetTimeout 5000], no_effect)
      end
  | AwaitTimer uploadedFile getFile => Some (loop_test uploadedFile getFile r)
  | Finished _ => None
  end.

Section Interleaving.

Variable createObjectURL : File -> string.

(** The part of [uploadVideo] that runs when the file is dropped: lines
    154-172 and [uploadFile] up to its first [await]. *)
Definition drop (files : list File) (r : Remote) (s : AppState)
  : option Run * list event * AppState :=
  let s1 := setVideoError false (setIsLoadingVideo true s) in
  match files with
  | [] => (None, [], setIsLoadingVideo false s1)
  | droppedFile :: _ =>
      if negb (String.prefix "video/" (type droppedFile)) then
        (None, [],
         setVidUrl None (setIsLoadingVideo false (setVideoError true s1)))
      else
        (Some (mkRun AwaitUpload r), [FilesUpload (name droppedFile)],
         setVidUrl (Some (createObjectURL droppedFile)) s1)
  end.

(** The page: the shared state, the calls of [uploadVideo] started so far
    in the order of their start, and what each has sent. *)
Record System : Type := mkSystem {
  app : AppState;
  runs : list Run;
  sent : list (nat * event)
}.

Inductive action : Type :=
| Drop (files : list File) (r : Remote)
| Resume (i : nat).

Fixpoint replace_nth {A} (i : nat) (x : A) (l : list A) : list A :=
  match l, i with
  | [], _ => []
  | _ :: rest, O => x :: rest
  | y :: rest, S k => y :: replace_nth k x rest
  end.

Definition tag (i : nat) (evs : list event) : list (nat * event) :=
  map (pair i) evs.

Definition step (a : action) (sys : System) : System :=
  match a with
  | Drop files r =>
      match drop files r (app sys) with
      | (Some run, evs, s) =>
          mkSystem s (runs sys ++ [run])
                   (sent sys ++ tag (List.length (runs sys)) evs)
      | (None, _, s) => mkSystem s (runs sys) (sent sys)
      end
  | Resume i =>
      match nth_error (runs sys) i with
      | None => sys
      | Some run =>
          match resume run with
          | None => sys
          | Some (run', evs, eff) =>
              mkSystem (eff (app sys)) (replace_nth i run' (runs sys))
                       (sent sys ++ tag i evs)
          end
      end
  end.

Definition exec (sched : list action) (sys : System) : System :=
  fold_left (fun st a => step a st) sched sys.

Definition boot (s : AppState) : System := mkSystem s [] [].

(** What run [i] has sent, and how many status queries are among it. *)
Definition sent_by (i : nat) (sys : System) : list event :=
  map snd (filter (fun e => Nat.eqb (fst e) i) (sent sys)).

Definition queries_of (i : nat) (sys : System) : nat :=
  status_queries (sent_by i sys).

(** How often a schedule resumes run [i]. *)
Definition resumes_of (i : nat) (sched : list action) : nat :=
  List.length
    (filter (fun a => match a with
                      | Resume j => Nat.eqb j i
                      | Drop _ _ => false
                      end) sched).

End Interleaving.

(** Running one call alone: resuming it [fuel] times, or until it is
    finished or no answer is left for it. *)
Fixpoint resume_alone (fuel : nat) (run : Run) : Run * list event * effect :=
  match fuel with
  | O => (run, [], no_effect)
  | S k =>
      match resume run with
      | None => (run, [], no_effect)
      | Some (run', evs, eff) =>
          let '(last, evs', eff') := resume_alone k run' in
          (last, evs ++ evs', fun s => eff' (eff s))
      end
  end.

(** ** The search filter and the export ([App.tsx], lines 74-88, 184-262)

    The built-in string functions whose result depends on the Unicode
    tables, and the conversion of a [number] to a string, are parameters:
    [toLowerCase], [trim], [Number.prototype.toString] and the members of
    the character class [\s]. *)

(** [s.includes(q)] *)
Definition includes (s q : string) : bool :=
  match String.index 0 q s with
  | Some _ => true
  | None => false
  end.

(** [xs.join(sep)] on an array of strings. *)
Definition join (sep : string) (xs : list string) : string :=
  String.concat sep xs.

(** The truth value of an expression of type [boolean | undefined]. *)
Definition truthy (b : option bool) : bool :=
  match b with
  | Some true => true
  | _ => false
  end.

Definition quote : ascii := ascii_of_nat 34.
Definition newline : ascii := ascii_of_nat 10.
Definition pipe : ascii := "|"%char.
Definition slash : ascii := "/"%char.
Definition nl : string := String newline EmptyString.

(** The global replace of line 196: every double quote becomes two. *)
Fixpoint double_quotes (s : string) : string :=
  match s with
  | EmptyString => EmptyString
  | String c rest =>
      if Ascii.eqb c quote
      then String quote (String quote (double_quotes rest))
      else String c (double_quotes rest)
  end.

(** Line 196: the text between double quotes, with its own doubled. *)
Definition sanitizeCsv (t : string) : string :=
  String quote (double_quotes t ++ String quote EmptyString).

(** The two global replaces of line 198: a backslash is put before every
    pipe, then every line feed becomes the four characters [<br>]. *)
Fixpoint escape_pipes (s : string) : string :=
  match s with
  | EmptyString => EmptyString
  | String c rest =>
      if Ascii.eqb c pipe
      then String backslash (String pipe (escape_pipes rest))
      else String c (escape_pipes rest)
  end.

Fixpoint break_lines (s : string) : string :=
  match s with
  | EmptyString => EmptyString
  | String c rest =>
      if Ascii.eqb c newline
      then ("<br>" ++ break_lines rest)%string
      else String c (break_lines rest)
  end.

Definition sanitizeMd (t : string) : string := break_lines (escape_pipes t).

Inductive Format : Type :=
| Csv
| Md.

(** What the link that [handleExport] clicks offers for download. *)
Record Download : Type := mkDownload {
  downloadName : string;
  blobType : string;
  blobContent : string
}.

(** [rows.map(f)] for a callback that can throw: the first item whose
    callback throws ends the map. *)
Fixpoint map_rows {A} (f : A -> outcome string) (l : list A)
  : outcome (list string) :=
  match l with
  | [] => Returned []
  | x :: rest =>
      match f x with
      | Returned row =>
          match map_rows f rest with
          | Returned rows => Returned (row :: rows)
          | Thrown e => Thrown e
          | Unsettled => Unsettled
          end
      | Thrown e => Thrown e
      | Unsettled => Unsettled
      end
  end.

Definition reading_replace : exn :=
  TypeError "Cannot read properties of undefined (reading 'replace')".

Definition reading_join : exn :=
  TypeError "Cannot read properties of undefined (reading 'join')".

Section Presentation.

Variable toLowerCase : string -> string.
Variable trim : string -> string.
Variable numberToString : number -> string.
Variable isWhiteSpace : ascii -> bool.

(** The callback of [timecodeList.filter], lines 78-87. *)
Definition matches_query (searchQuery : string) (item : Timecode) : bool :=
  let query := toLowerCase searchQuery in
  let textMatch :=
    option_map (fun t => includes (toLowerCase t) query) (text item) in
  let objectsMatch :=
    option_map (fun o => includes (toLowerCase (join ", " o)) query)
               (objects item) in
  let valueMatch :=
    option_map (fun v => includes (toLowerCase (numberToString v)) query)
               (value item) in
  truthy textMatch || truthy objectsMatch || truthy valueMatch.

(** Lines 74-88. *)
Definition filteredTimecodeList (s : AppState) : option (list Timecode) :=
  match timecodeList s with
  | None => None
  | Some l =>
      if String.eqb (trim (searchQuery s)) ""
      then Some l
      else Some (filter (matches_query (searchQuery s)) l)
  end.

(** Lines 192-194: the mode in lower case, with every white space
    character and every slash replaced by a hyphen. *)
Fixpoint hyphenate (s : string) : string :=
  match s with
  | EmptyString => EmptyString
  | String c rest =>
      if isWhiteSpace c || Ascii.eqb c slash
      then String "-"%char (hyphenate rest)
      else String c (hyphenate rest)
  end.

Definition extension (format : Format) : string :=
  match format with
  | Csv => "csv"
  | Md => "md"
  end.

Definition fileName (activeMode : string) (format : Format) : string :=
  (hyphenate (toLowerCase activeMode) ++ "-export." ++ extension format)%string.

Definition mimeTypeOf (format : Format) : string :=
  match format with
  | Md => "text/markdown;charset=utf-8;"
  | Csv => "text/csv;charset=utf-8;"
  end.

(** The rows.  [item.text!] and [item.objects!] are read in the order of
    the source; [join] prints an absent value as the empty string and a
    template literal prints it as [undefined]. *)
Definition csv_table_row (item : Timecode) : outcome string :=
  match text item with
  | None => Thrown reading_replace
  | Some t =>
      match objects item with
      | None => Thrown reading_join
      | Some o =>
          Returned
            (join "," [time item; sanitizeCsv t; sanitizeCsv (join ", " o)])
      end
  end.

Definition csv_chart_row (item : Timecode) : outcome string :=
  Returned
    (join "," [ time item;
                match value item with
                | Some v => numberToString v
                | None => ""
                end ]).

Definition csv_text_row (item : Timecode) : outcome string :=
  match text item with
  | None => Thrown reading_replace
  | Some t => Returned (join "," [time item; sanitizeCsv t])
  end.

Definition md_table_row (item : Timecode) : outcome string :=
  match text item with
  | None => Thrown reading_replace
  | Some t =>
      match objects item with
      | None => Thrown reading_join
      | Some o =>
          Returned
            ("| " ++ time item ++ " | " ++ sanitizeMd t ++ " | "
             ++ sanitizeMd (join ", " o) ++ " |")%string
      end
  end.

Definition md_chart_row (item : Timecode) : outcome string :=
  Returned
    ("- **" ++ time item ++ "**: "
     ++ match value item with
        | Some v => numberToString v
        | None => "undefined"
        end)%string.

Definition md_text_row (item : Timecode) : outcome string :=
  match text item with
  | None => Thrown reading_replace
  | Some t =>
      Returned ("- **[" ++ time item ++ "]** " ++ sanitizeMd t)%string
  end.

Definition table_headers : list string := ["Time"; "Description"; "Objects"].

(** Lines 200-227. *)
Definition csv_content (activeMode : string) (l : list Timecode)
  : outcome string :=
  let '(headers, row) :=
    if String.eqb activeMode "Table" then (table_headers, csv_table_row)
    else if String.eqb activeMode "Chart"
    then (["Time"; "Value"], csv_chart_row)
    else (["Time"; "Text"], csv_text_row) in
  match map_rows row l with
  | Returned rows => Returned (join nl (join "," headers :: rows))
  | Thrown e => Thrown e
  | Unsettled => Unsettled
  end.

(** Lines 228-251. *)
Definition md_content (activeMode chartLabel : string) (l : list Timecode)
  : outcome string :=
  let title := ("# " ++ activeMode ++ " Export" ++ nl ++ nl)%string in
  let '(heading, row) :=
    if String.eqb activeMode "Table" then
      (("| " ++ join " | " table_headers ++ " |" ++ nl
        ++ "| " ++ join " | " (map (fun _ => "---") table_headers) ++ " |"
        ++ nl)%string,
       md_table_row)
    else if String.eqb activeMode "Chart" then
      (("## "
        ++ (if String.eqb chartLabel "" then "Chart Data" else chartLabel)
        ++ nl ++ nl)%string,
       md_chart_row)
    else (EmptyString, md_text_row) in
  match map_rows row l with
  | Returned rows => Returned (title ++ heading ++ join nl rows)%string
  | Thrown e => Thrown e
  | Unsettled => Unsettled
  end.

(** [handleExport], lines 184-262: the download it offers, [None] when it
    returns at line 185 without offering one. *)
Definition handleExport (format : Format) (s : AppState)
  : outcome (option Download) :=
  match timecodeList s, activeMode s with
  | Some l, Some mode =>
      if String.eqb mode "" then Returned None
      else
        match
          match format with
          | Csv => csv_content mode l
          | Md => md_content mode (chartLabel s) l
          end
        with
        | Returned content =>
            Returned
              (Some (mkDownload (fileName mode format) (mimeTypeOf format)
                                content))
        | Thrown e => Thrown e
        | Unsettled => Unsettled
        end
  | _, _ => Returned None
  end.

End Presentation.

(** ** The wording of the specification, for comparison *)

(** [s] contains a backslash followed by an apostrophe. *)
Fixpoint has_escaped_apostrophe (s : string) : bool :=
  match s with
  | EmptyString => false
  | String c rest =>
      match rest with
      | String d _ =>
          (Ascii.eqb c backslash && Ascii.eqb d apostrophe)
          || has_escaped_apostrophe rest
      | EmptyString => false
      end
  end.

Definition escaped_apostrophe : string :=
  String backslash (String apostrophe EmptyString).

Definition plain_apostrophe : string := String apostrophe EmptyString.

(** "Literal backslash-escaped apostrophes rewritten to plain apostrophes":
    [Unescaped s t] when [t] is [s] with each occurrence of the two
    characters replaced by an apostrophe and everything else kept. *)
Inductive Unescaped : string -> string -> Prop :=
| Unescaped_none (s : string) :
    has_escaped_apostrophe s = false -> Unescaped s s
| Unescaped_first (a b b' : string) :
    has_escaped_apostrophe a = false ->
    Unescaped b b' ->
    Unescaped (a ++ escaped_apostrophe ++ b) (a ++ plain_apostrophe ++ b').

(** The same for a text that may be absent. *)
Definition text_cleaned (x x' : option string) : Prop :=
  match x, x' with
  | Some a, Some b => Unescaped a b
  | None, None => True
  | _, _ => False
  end.

(** A result item that is its argument item with the text cleaned. *)
Definition Normalized (t t' : Timecode) : Prop :=
  text_cleaned (text t) (text t')
  /\ time t' = time t /\ objects t' = objects t /\ value t' = value t.

(** "Each produced item's free text" is cleaned, whichever declared tool
    was called. *)
Definition every_tool_cleans_text : Prop :=
  forall (call : FunctionCall) (rest : list FunctionCall) (s s' : AppState)
         (result : list Timecode),
    In (callName call) declared_tools ->
    dispatch (mkResponse (Some (call :: rest))) s = (Returned tt, s') ->
    timecodeList s' = Some result ->
    Forall2 Normalized (timecodes (callArgs call)) result.

(** "If the name is unknown ... must fail loudly rather than silently
    skip." *)
Definition unknown_tool_fails_loudly : Prop :=
  forall (call : FunctionCall) (rest : list FunctionCall) (s : AppState),
    ~ In (callName call) declared_tools ->
    exists e, dispatch (mkResponse (Some (call :: rest))) s = (Thrown e, s).

(** A state the code neither waits on nor rejects: [uploadFile] hands a
    file in such a state back to its caller. *)
Definition is_ready (st : string) : bool :=
  negb (String.eqb st PROCESSING) && negb (String.eqb st FAILED).

(** The answer [PROCESSING], [n] times. *)
Definition pending (n : nat) : list (reply string) :=
  repeat (Resolves PROCESSING) n.

Definition only_typing (cs : list ChartControl) : Prop :=
  Forall (fun c => match c with ChangeText _ => True | _ => False end) cs.

Section Supersession.

Variable createObjectURL : File -> string.

(** Run [i] has been superseded: an upload was started after it. *)
Definition superseded (i : nat) (sys : System) : Prop :=
  S i < List.length (runs sys).

(** "The poller must stop issuing further queries" once superseded. *)
Definition superseded_run_stops_polling : Prop :=
  forall (s : AppState) (sched : list action) (i : nat),
    let sys := exec createObjectURL sched (boot s) in
    superseded i sys ->
    queries_of i (step createObjectURL (Resume i) sys) = queries_of i sys.

(** "Stale results from an abandoned run must never overwrite newer
    state": once a later run [j] has stored its handle [g], resuming an
    earlier run [i] leaves [g] in place. *)
Definition newest_handle_is_kept : Prop :=
  forall (s : AppState) (sched : list action) (i j : nat) (g : RemoteFile)
         (r : Remote),
    let sys := exec createObjectURL sched (boot s) in
    i < j ->
    nth_error (runs sys) j = Some (mkRun (Finished (Returned g)) r) ->
    file (app sys) = Some g ->
    file (app (step createObjectURL (Resume i) sys)) = Some g.

End Supersession.

(** ** What the page offers ([App.tsx], line 272)

    The mode selector, with its Generate button, is rendered when
    [vidUrl && !isLoadingVideo]. *)
Definition modeSelectorShown (s : AppState) : bool :=
  match vidUrl s with
  | Some url => negb (String.eqb url "") && negb (isLoadingVideo s)
  | None => false
  end.

(** ** Predicates of the further statements *)

Definition is_timer (e : event) : bool :=
  match e with SetTimeout _ => true | _ => false end.

(** The requests of [k] turns of the loop of [uploadFile]. *)
Definition loop_turns (u : RemoteFile) (k : nat) : list event :=
  List.concat (repeat [FilesGet (remoteName u); SetTimeout 5000] k).

(** A stored handle, if any, is in a state [uploadFile] hands back. *)
Definition ready_handle (f : option RemoteFile) : Prop :=
  match f with
  | Some g => is_ready (state g) = true
  | None => True
  end.

(** Two items that agree on every field but the text. *)
Definition same_but_text (t t' : Timecode) : Prop :=
  time t' = time t /\ objects t' = objects t /\ value t' = value t.

(** The clicks are on buttons the Chart panel shows: one per key of the
    sub-modes (line 300). *)
Definition offered (sm : list (string * string)) (cs : list ChartControl)
  : Prop :=
  Forall (fun c => match c with
                   | ClickSubMode m => In m (keys sm)
                   | _ => True
                   end) cs.

Definition chart_mode_known (sm : list (string * string)) (s : AppState)
  : Prop :=
  exists m, chartMode s = Some m /\ (m = "Custom" \/ In m (keys sm)).

Fixpoint contains_char (c : ascii) (s : string) : bool :=
  match s with
  | EmptyString => false
  | String d rest => Ascii.eqb d c || contains_char c rest
  end.

(** Every pipe of [s] stands right after a backslash; [after_backslash]
    tells whether the character before [s] is one. *)
Fixpoint pipes_escaped (after_backslash : bool) (s : string) : bool :=
  match s with
  | EmptyString => true
  | String c rest =>
      (if Ascii.eqb c pipe then after_backslash else true)
      && pipes_escaped (Ascii.eqb c backslash) rest
  end.

(** ** Sample data *)

Definition sample_modes : list (string * ModeConfig) :=
  [ ("Paragraph",
     mkMode (PromptText "Describe the video in a paragraph.") None);
    ("Chart",
     mkMode
       (PromptFn (fun v =>
          match v with
          | Str x => ("Chart the video: " ++ x)%string
          | _ => "Chart the video: undefined"
          end))
       (Some [ ("Excitement", "rate the excitement of each scene");
               ("Importance", "rate the importance of each scene") ]));
    ("Custom",
     mkMode
       (PromptFn (fun v =>
          match v with
          | Str x => ("Follow the instructions: " ++ x)%string
          | _ => "Follow the instructions: undefined"
          end))
       None) ].

Definition sample_url (f : File) : string := ("blob:" ++ name f)%string.

Definition clip : File := mkFile "clip.mp4" "video/mp4".
Definition notes : File := mkFile "notes.txt" "text/plain".

Definition stored_clip : RemoteFile :=
  mkRemoteFile "files/clip" "https://files.example/clip" "video/mp4"
               PROCESSING.

Definition stored_talk : RemoteFile :=
  mkRemoteFile "files/talk" "https://files.example/talk" "video/mp4"
               PROCESSING.

Definition escaped_item : Timecode :=
  mkTimecode "00:01" (Some "A\'B") None None.

Definition untexted_item : Timecode :=
  mkTimecode "00:02" None None None.

Definition sample_state : AppState :=
  setSelectedMode "Chart" (initial_state sample_modes).

(** Two uploads: [clip] is dropped, and while it is being processed [talk]
    is dropped and becomes ready at once. *)
Definition talk : File := mkFile "talk.mp4" "video/mp4".

Definition remote_clip : Remote :=
  mkRemote (Resolves stored_clip) [Resolves PROCESSING; Resolves ACTIVE].

Definition remote_talk : Remote :=
  mkRemote (Resolves stored_talk) [Resolves ACTIVE].

Definition superseding_upload : list action :=
  [ Drop [clip] remote_clip;   (* run 0 starts *)
    Resume 0;                  (* its upload is acknowledged *)
    Drop [talk] remote_talk;   (* run 1 starts *)
    Resume 1;                  (* its upload is acknowledged *)
    Resume 1 ].                (* it is ready: run 1 stores its file *)

(** Then the first upload gets its next two answers, still processing and
    ready; after them only its timer is outstanding. *)
Definition stale_answers : list action := [Resume 0; Resume 0].

(** Stand-ins for the built-in functions on ASCII text, as instances for
    the examples. *)
Definition sample_isWhiteSpace (c : ascii) : bool :=
  let n := nat_of_ascii c in
  Nat.eqb n 32 || (Nat.leb 9 n && Nat.leb n 13).

Definition lower_ascii (c : ascii) : ascii :=
  let n := nat_of_ascii c in
  if Nat.leb 65 n && Nat.leb n 90 then ascii_of_nat (n + 32) else c.

Fixpoint sample_toLowerCase (s : string) : string :=
  match s with
  | EmptyString => EmptyString
  | String c rest => String (lower_ascii c) (sample_toLowerCase rest)
  end.

Fixpoint trim_start (s : string) : string :=
  match s with
  | EmptyString => EmptyString
  | String c rest => if sample_isWhiteSpace c then trim_start rest else s
  end.

Definition reverse (s : string) : string :=
  string_of_list_ascii (rev (list_ascii_of_string s)).

Definition sample_trim (s : string) : string :=
  reverse (trim_start (reverse (trim_start s))).

Definition sample_numberToString (v : number) : string :=
  if PrimFloat.eqb v PrimFloat.zero then "0"
  else if PrimFloat.eqb v PrimFloat.one then "1"
  else if PrimFloat.eqb v PrimFloat.two then "2"
  else "NaN".

Definition captioned_item : Timecode :=
  mkTimecode "00:05" (Some "A dog | barks") (Some ["dog"; "lawn"]) None.

Definition valued_item : Timecode :=
  mkTimecode "00:07" None None (Some PrimFloat.two).

Definition bare_item : Timecode := mkTimecode "00:09" None None None.


(** * Properties *)

(** ** The global replace *)

Lemma replace_escaped_apostrophes_cons (c d : ascii) (rest : string) :
  replace_escaped_apostrophes (String c (String d rest)) =
  if (Ascii.eqb c backslash && Ascii.eqb d apostrophe)%bool
  then String apostrophe (replace_escaped_apostrophes rest)
  else String c (replace_escaped_apostrophes (String d rest)).
Proof. reflexivity. Qed.

Lemma has_escaped_apostrophe_cons (c d : ascii) (rest : string) :
  has_escaped_apostrophe (String c (String d rest)) =
  ((Ascii.eqb c backslash && Ascii.eqb d apostrophe)
   || has_escaped_apostrophe (String d rest))%bool.
Proof. reflexivity. Qed.

Lemma replace_without_escapes (s : string) :
  has_escaped_apostrophe s = false -> replace_escaped_apostrophes s = s.
Proof.
  induction s as [|c rest IH]; [reflexivity|].
  destruct rest as [|d rest']; [reflexivity|].
  rewrite has_escaped_apostrophe_cons, replace_escaped_apostrophes_cons.
  intros H. apply orb_false_iff in H. destruct H as [Hc Hrest].
  rewrite Hc, (IH Hrest). reflexivity.
Qed.

Lemma replace_at_first_escape (a b : string) :
  has_escaped_apostrophe a = false ->
  replace_escaped_apostrophes (a ++ escaped_apostrophe ++ b) =
  (a ++ plain_apostrophe ++ replace_escaped_apostrophes b)%string.
Proof.
  induction a as [|c a' IH]; intros Ha.
  - reflexivity.
  - destruct a' as [|d a''].
    + specialize (IH eq_refl).
      change (String c "" ++ escaped_apostrophe ++ b)%string
        with (String c (String backslash (String apostrophe b))).
      rewrite replace_escaped_apostrophes_cons.
      replace (Ascii.eqb c backslash && Ascii.eqb backslash apostrophe)%bool
        with false by (rewrite andb_comm; reflexivity).
      change (String backslash (String apostrophe b))
        with ("" ++ escaped_apostrophe ++ b)%string.
      rewrite IH. reflexivity.
    + rewrite has_escaped_apostrophe_cons in Ha.
      apply orb_false_iff in Ha. destruct Ha as [Hc Hrest].
      specialize (IH Hrest).
      change (String c (String d a'') ++ escaped_apostrophe ++ b)%string
        with (String c (String d (a'' ++ escaped_apostrophe ++ b))).
      rewrite replace_escaped_apostrophes_cons, Hc.
      change (String d (a'' ++ escaped_apostrophe ++ b))
        with (String d a'' ++ escaped_apostrophe ++ b)%string.
      rewrite IH. reflexivity.
Qed.

(** The relation determines its result, and the result is the one the code
    computes. *)
Lemma Unescaped_is_replace (s t : string) :
  Unescaped s t -> t = replace_escaped_apostrophes s.
Proof.
  induction 1 as [s Hs | a b b' Ha Hb IH].
  - symmetry. apply replace_without_escapes. exact Hs.
  - rewrite replace_at_first_escape by exact Ha. rewrite IH. reflexivity.
Qed.

Lemma Unescaped_cons (c : ascii) (s t : string) :
  match s with
  | String d _ => (Ascii.eqb c backslash && Ascii.eqb d apostrophe)%bool
  | EmptyString => false
  end = false ->
  Unescaped s t -> Unescaped (String c s) (String c t).
Proof.
  intros Hc H. destruct H as [s Hs | a b b' Ha Hb].
  - apply Unescaped_none.
    destruct s as [|d rest]; [reflexivity|].
    rewrite has_escaped_apostrophe_cons, Hc, Hs. reflexivity.
  - apply (Unescaped_first (String c a) b b'); [|exact Hb].
    destruct a as [|d a']; [reflexivity|].
    rewrite has_escaped_apostrophe_cons.
    simpl in Hc. rewrite Hc, Ha. reflexivity.
Qed.

Lemma replace_is_Unescaped_upto (n : nat) :
  forall s : string,
    String.length s <= n -> Unescaped s (replace_escaped_apostrophes s).
Proof.
  induction n as [|n IH]; intros s Hlen.
  - destruct s; [|simpl in Hlen; lia].
    apply Unescaped_none. reflexivity.
  - destruct s as [|c rest]; [apply Unescaped_none; reflexivity|].
    destruct rest as [|d rest'].
    + apply Unescaped_none. reflexivity.
    + rewrite replace_escaped_apostrophes_cons.
      destruct (Ascii.eqb c backslash && Ascii.eqb d apostrophe)%bool eqn:Hc.
      * apply andb_true_iff in Hc. destruct Hc as [Hc Hd].
        apply Ascii.eqb_eq in Hc. apply Ascii.eqb_eq in Hd. subst c d.
        apply (Unescaped_first EmptyString rest').
        -- reflexivity.
        -- apply IH. simpl in Hlen. lia.
      * apply Unescaped_cons; [exact Hc|].
        apply IH. simpl in Hlen. simpl. lia.
Qed.

Lemma replace_is_Unescaped (s : string) :
  Unescaped s (replace_escaped_apostrophes s).
Proof. apply (replace_is_Unescaped_upto (String.length s)). lia. Qed.

Example replace_spec_sample :
  replace_escaped_apostrophes "A\'B" = "A'B".
Proof. reflexivity. Qed.

Example replace_keeps_other_backslashes :
  replace_escaped_apostrophes "C:\dir\\'x'" = "C:\dir\'x'".
Proof. reflexivity. Qed.

(** ** Lookup *)

Lemma assoc_not_in {A} (key : string) (props : list (string * A)) :
  ~ In key (keys props) -> assoc key props = None.
Proof.
  induction props as [|[k v] rest IH]; intros Hnot; [reflexivity|].
  simpl. destruct (String.eqb k key) eqn:Hk.
  - apply String.eqb_eq in Hk. exfalso. apply Hnot. left. exact Hk.
  - apply IH. intros Hin. apply Hnot. right. exact Hin.
Qed.

Lemma assoc_in {A} (key : string) (props : list (string * A)) (v : A) :
  assoc key props = Some v -> In key (keys props).
Proof.
  induction props as [|[k w] rest IH]; [discriminate|].
  simpl. destruct (String.eqb k key) eqn:Hk.
  - intros _. left. apply String.eqb_eq. exact Hk.
  - intros H. right. apply IH. exact H.
Qed.

Lemma js_get_own {A} (own : list (string * A)) (key : string) (v : A) :
  assoc key own = Some v -> js_get own key = Own v.
Proof. unfold js_get. intros ->. reflexivity. Qed.

Lemma declared_tools_cases (key : string) :
  In key declared_tools ->
  key = "set_timecodes" \/ key = "set_timecodes_with_objects"
  \/ key = "set_timecodes_with_numeric_values".
Proof.
  unfold declared_tools. simpl.
  intros [H | [H | [H | []]]]; subst; auto.
Qed.

(** ** The handlers *)

Lemma traverse_normalize_absent (l : list Timecode) :
  (exists t, In t l /\ text t = None) -> traverse normalize l = None.
Proof.
  induction l as [|x rest IH]; intros [t [Hin Ht]]; [destruct Hin|].
  simpl. destruct Hin as [-> | Hin].
  - unfold normalize. rewrite Ht. reflexivity.
  - destruct (normalize x); [|reflexivity].
    rewrite IH; [reflexivity|]. exists t. split; assumption.
Qed.

Lemma traverse_normalize_present (l : list Timecode) :
  Forall (fun t => text t <> None) l ->
  exists result,
    traverse normalize l = Some result /\ Forall2 Normalized l result.
Proof.
  induction 1 as [|x rest Hx Hrest [result [IH1 IH2]]].
  - exists []. split; [reflexivity | constructor].
  - destruct (text x) as [a|] eqn:Ha; [|contradiction].
    exists (with_text x (replace_escaped_apostrophes a) :: result).
    split.
    + simpl. unfold normalize at 1. rewrite Ha.
      fold (traverse normalize rest). rewrite IH1. reflexivity.
    + constructor; [|exact IH2].
      unfold Normalized. rewrite Ha. simpl.
      repeat split. apply replace_is_Unescaped.
Qed.

Lemma setTimecodes_absent (a : Args) (s : AppState) :
  (exists t, In t (timecodes a) /\ text t = None) ->
  exists msg, setTimecodes a s = (Thrown (TypeError msg), s).
Proof.
  intros H. unfold setTimecodes.
  rewrite (traverse_normalize_absent _ H). eexists. reflexivity.
Qed.

Lemma setTimecodes_present (a : Args) (s : AppState) :
  Forall (fun t => text t <> None) (timecodes a) ->
  exists result,
    setTimecodes a s = (Returned tt, setTimecodeList (Some result) s)
    /\ Forall2 Normalized (timecodes a) result.
Proof.
  intros H. destruct (traverse_normalize_present _ H) as [result [H1 H2]].
  exists result. split; [|exact H2].
  unfold setTimecodes. rewrite H1. reflexivity.
Qed.

Lemma invoke_setTimecodes (call : FunctionCall) (s : AppState) :
  callName call = "set_timecodes"
  \/ callName call = "set_timecodes_with_objects" ->
  invoke call s = setTimecodes (callArgs call) s.
Proof. unfold invoke. intros [-> | ->]; reflexivity. Qed.

Lemma invoke_numeric_values (call : FunctionCall) (s : AppState) :
  callName call = "set_timecodes_with_numeric_values" ->
  invoke call s =
  (Returned tt, setTimecodeList (Some (timecodes (callArgs call))) s).
Proof. unfold invoke. intros ->. reflexivity. Qed.

Lemma invoke_undeclared (call : FunctionCall) (s : AppState) :
  ~ In (callName call) declared_tools ->
  invoke call s =
  match assoc (callName call) object_prototype with
  | Some m => (call_inherited m, s)
  | None => (Thrown (TypeError "is not a function"), s)
  end.
Proof.
  intros H. unfold invoke, js_get.
  rewrite (assoc_not_in _ handlers H).
  destruct (assoc (callName call) object_prototype); reflexivity.
Qed.

(** ** Dispatch *)

(** C3.  When the list of function calls of a response is not empty, the
    dispatcher does what invoking the first call does: it looks up the
    handler under that call's name and applies it to that call's arguments.
    The calls behind the first have no effect: the response with the first
    call alone leads [dispatch], and [onModeSelect] as a whole, to the same
    outcome, state and requests. *)
Theorem dispatch_selects_first_call
    (modes : list (string * ModeConfig)) (mode : ModeKey)
    (call : FunctionCall) (rest : list FunctionCall) (s : AppState) :
  let resp := mkResponse (Some (call :: rest)) in
  let alone := mkResponse (Some [call]) in
  dispatch resp s = invoke call s
  /\ (forall h, assoc (callName call) handlers = Some h ->
                dispatch resp s = h (callArgs call) s)
  /\ dispatch resp s = dispatch alone s
  /\ onModeSelect modes mode (Resolves resp) s =
     onModeSelect modes mode (Resolves alone) s.
Proof.
  cbv zeta. split; [reflexivity|]. split; [|split; reflexivity].
  intros h Hh. change (invoke call s = h (callArgs call) s).
  unfold invoke. rewrite (js_get_own _ _ _ Hh). reflexivity.
Qed.

Example second_call_is_ignored :
  let first := mkCall "set_timecodes_with_numeric_values"
                      (mkArgs [untexted_item]) in
  let second := mkCall "set_timecodes" (mkArgs [escaped_item]) in
  dispatch (mkResponse (Some [first; second])) sample_state =
  (Returned tt, setTimecodeList (Some [untexted_item]) sample_state).
Proof. reflexivity. Qed.

(** C4.  When the list of function calls of a response is empty or absent,
    the dispatcher changes no state and raises no error: [dispatch] returns
    the state it was given, and the rest of [onModeSelect] only clears
    [isLoading], so [timecodeList] holds the value it held before. *)
Theorem dispatch_without_calls (resp : Response) (s : AppState) :
  functionCalls resp = None \/ functionCalls resp = Some [] ->
  dispatch resp s = (Returned tt, s)
  /\ onModeSelect_resume (Resolves resp) s = (Returned tt, setIsLoading false s)
  /\ timecodeList (snd (onModeSelect_resume (Resolves resp) s)) =
     timecodeList s.
Proof.
  intros H.
  assert (Hd : dispatch resp s = (Returned tt, s)).
  { unfold dispatch, first_call. destruct H as [-> | ->]; reflexivity. }
  split; [exact Hd|].
  unfold onModeSelect_resume. rewrite Hd. split; reflexivity.
Qed.

Lemma dispatch_without_calls_witness :
  dispatch (mkResponse (Some [])) sample_state = (Returned tt, sample_state)
  /\ onModeSelect_resume (Resolves (mkResponse (Some []))) sample_state =
     (Returned tt, setIsLoading false sample_state)
  /\ timecodeList
       (snd (onModeSelect_resume (Resolves (mkResponse (Some [])))
                                 sample_state)) =
     timecodeList sample_state.
Proof.
  apply (dispatch_without_calls (mkResponse (Some [])) sample_state).
  right. reflexivity.
Defined.

(** C5, as the code has it.  No name is validated: the handler is looked up
    on an object literal and called.  For a call whose name is not one of
    the three declared tool names the state is left as it was; and when the
    name is not a member of [Object.prototype] either, the lookup yields
    [undefined], calling it raises a [TypeError], and the error leaves
    [onModeSelect] uncaught. *)
Theorem undeclared_tool_outcome
    (call : FunctionCall) (rest : list FunctionCall) (s : AppState) :
  ~ In (callName call) declared_tools ->
  let resp := mkResponse (Some (call :: rest)) in
  snd (dispatch resp s) = s
  /\ (assoc (callName call) object_prototype = None ->
      dispatch resp s = (Thrown (TypeError "is not a function"), s)
      /\ onModeSelect_resume (Resolves resp) s =
         (Thrown (TypeError "is not a function"), s)).
Proof.
  intros H resp.
  assert (Hd : dispatch resp s = invoke call s) by reflexivity.
  rewrite (invoke_undeclared _ s H) in Hd.
  split.
  - rewrite Hd. destruct (assoc (callName call) object_prototype); reflexivity.
  - intros Hnone. rewrite Hnone in Hd. split; [exact Hd|].
    unfold onModeSelect_resume. rewrite Hd. reflexivity.
Qed.

Lemma undeclared_tool_outcome_witness :
  let resp := mkResponse (Some [mkCall "set_captions" (mkArgs [])]) in
  snd (dispatch resp sample_state) = sample_state
  /\ (assoc "set_captions" object_prototype = None ->
      dispatch resp sample_state =
      (Thrown (TypeError "is not a function"), sample_state)
      /\ onModeSelect_resume (Resolves resp) sample_state =
         (Thrown (TypeError "is not a function"), sample_state)).
Proof.
  apply (undeclared_tool_outcome (mkCall "set_captions" (mkArgs [])) []
                                 sample_state).
  simpl. intros [H | [H | [H | []]]]; discriminate H.
Defined.

(** C5, as stated, fails: a call named [toString] is not a declared tool,
    yet the lookup finds [Object.prototype.toString], the call of it
    succeeds, and the dispatcher goes on without any error. *)
Lemma toString_is_skipped_silently : ~ unknown_tool_fails_loudly.
Proof.
  intros H.
  destruct (H (mkCall "toString" (mkArgs [])) [] sample_state) as [e He].
  - simpl. intros [E | [E | [E | []]]]; discriminate E.
  - discriminate He.
Qed.

(** C6, as the code has it.  A call of [set_timecodes] or of
    [set_timecodes_with_objects] whose items all carry a text replaces the
    result list by one item per argument item, in order, each with its text
    cleaned of backslash-escaped apostrophes and its other fields kept. *)
Theorem setTimecodes_cleans_text
    (call : FunctionCall) (rest : list FunctionCall) (s : AppState) :
  callName call = "set_timecodes"
  \/ callName call = "set_timecodes_with_objects" ->
  Forall (fun t => text t <> None) (timecodes (callArgs call)) ->
  exists result,
    dispatch (mkResponse (Some (call :: rest))) s =
    (Returned tt, setTimecodeList (Some result) s)
    /\ Forall2 Normalized (timecodes (callArgs call)) result.
Proof.
  intros Hname Htext.
  destruct (setTimecodes_present (callArgs call) s Htext) as [res [H1 H2]].
  exists res. split; [|exact H2].
  change (invoke call s = (Returned tt, setTimecodeList (Some res) s)).
  rewrite (invoke_setTimecodes _ s Hname). exact H1.
Qed.

Lemma setTimecodes_cleans_text_witness :
  exists result,
    dispatch
      (mkResponse (Some [mkCall "set_timecodes" (mkArgs [escaped_item])]))
      sample_state =
    (Returned tt, setTimecodeList (Some result) sample_state)
    /\ Forall2 Normalized [escaped_item] result.
Proof.
  apply (setTimecodes_cleans_text
           (mkCall "set_timecodes" (mkArgs [escaped_item])) [] sample_state).
  - left. reflexivity.
  - repeat constructor. simpl. discriminate.
Defined.

(** The example of the specification, whose text is the four characters
    [A], backslash, apostrophe, [B]: it becomes [A'B]. *)
Example set_timecodes_spec_sample :
  dispatch
    (mkResponse (Some [mkCall "set_timecodes" (mkArgs [escaped_item])]))
    sample_state =
  (Returned tt,
   setTimecodeList (Some [mkTimecode "00:01" (Some "A'B") None None])
                   sample_state).
Proof. reflexivity. Qed.

(** C6, as stated, fails: [set_timecodes_with_numeric_values] stores the
    items it is given, so a text it receives keeps its escaped apostrophe. *)
Lemma numeric_values_keep_escapes : ~ every_tool_cleans_text.
Proof.
  intros H.
  pose (item := mkTimecode "00:01" (Some "A\'B") None (Some PrimFloat.one)).
  pose (call := mkCall "set_timecodes_with_numeric_values" (mkArgs [item])).
  specialize (H call [] sample_state
                (setTimecodeList (Some [item]) sample_state) [item]).
  assert (Hall : Forall2 Normalized [item] [item]).
  { apply H; [| reflexivity | reflexivity].
    unfold declared_tools. simpl. right. right. left. reflexivity. }
  inversion Hall as [|? ? ? ? [Htext _] _]; subst.
  simpl in Htext. apply Unescaped_is_replace in Htext. discriminate Htext.
Qed.

(** C10.  A call of [set_timecodes] or of [set_timecodes_with_objects] with
    an item whose text is absent throws a [TypeError] and produces no result
    list: the state is left as it was. *)
Theorem absent_text_throws
    (call : FunctionCall) (rest : list FunctionCall) (s : AppState) :
  callName call = "set_timecodes"
  \/ callName call = "set_timecodes_with_objects" ->
  (exists t, In t (timecodes (callArgs call)) /\ text t = None) ->
  exists msg,
    dispatch (mkResponse (Some (call :: rest))) s =
    (Thrown (TypeError msg), s).
Proof.
  intros Hname Habsent.
  change (exists msg, invoke call s = (Thrown (TypeError msg), s)).
  rewrite (invoke_setTimecodes _ s Hname).
  apply setTimecodes_absent. exact Habsent.
Qed.

Lemma absent_text_throws_witness :
  exists msg,
    dispatch
      (mkResponse
         (Some [mkCall "set_timecodes_with_objects"
                       (mkArgs [escaped_item; untexted_item])]))
      sample_state =
    (Thrown (TypeError msg), sample_state).
Proof.
  apply (absent_text_throws
           (mkCall "set_timecodes_with_objects"
                   (mkArgs [escaped_item; untexted_item])) [] sample_state).
  - right. reflexivity.
  - exists untexted_item. split; [right; left|]; reflexivity.
Defined.

(** The third handler reads no text, so it accepts such items. *)
Example numeric_values_accept_absent_text :
  dispatch
    (mkResponse
       (Some [mkCall "set_timecodes_with_numeric_values"
                     (mkArgs [untexted_item])]))
    sample_state =
  (Returned tt, setTimecodeList (Some [untexted_item]) sample_state).
Proof. reflexivity. Qed.

(** ** Polling *)

Lemma is_ready_spec (st : string) :
  is_ready st = true <-> st <> PROCESSING /\ st <> FAILED.
Proof.
  unfold is_ready. rewrite andb_true_iff, !negb_true_iff, !String.eqb_neq.
  reflexivity.
Qed.

Lemma status_queries_cons_get (fileName : string) (tr : list event) :
  status_queries (FilesGet fileName :: tr) = S (status_queries tr).
Proof. reflexivity. Qed.

Lemma status_queries_cons_timer (ms : nat) (tr : list event) :
  status_queries (SetTimeout ms :: tr) = status_queries tr.
Proof. reflexivity. Qed.

Lemma while_processing_exit (u getFile : RemoteFile)
    (script : list (reply string)) :
  String.eqb (state getFile) PROCESSING = false ->
  while_processing u getFile script = (after_loop getFile, [], script).
Proof. intros H. destruct script; simpl; rewrite H; reflexivity. Qed.

Lemma while_processing_turn (u getFile : RemoteFile) (st : string)
    (rest : list (reply string)) :
  String.eqb (state getFile) PROCESSING = true ->
  while_processing u getFile (Resolves st :: rest) =
  let '(o, tr, unread) := while_processing u (with_state u st) rest in
  (o, FilesGet (remoteName u) :: SetTimeout 5000 :: tr, unread).
Proof. intros H. simpl. rewrite H. reflexivity. Qed.

(** While the service answers [PROCESSING] the loop goes on; the first
    other answer [st] ends it, after one query per answer, and the answers
    behind [st] are never asked for. *)
Lemma while_processing_pending (u : RemoteFile) (st : string)
    (rest : list (reply string)) (n : nat) :
  st <> PROCESSING ->
  exists tr,
    while_processing u (with_state u PROCESSING)
                     (pending n ++ Resolves st :: rest) =
    (after_loop (with_state u st), tr, rest)
    /\ status_queries tr = S n
    /\ existsb is_generate tr = false.
Proof.
  intros Hst. apply String.eqb_neq in Hst.
  induction n as [|n [tr [IH1 [IH2 IH3]]]].
  - exists [FilesGet (remoteName u); SetTimeout 5000].
    change (pending 0 ++ Resolves st :: rest) with (Resolves st :: rest).
    rewrite while_processing_turn by reflexivity.
    rewrite while_processing_exit by exact Hst.
    repeat split.
  - exists (FilesGet (remoteName u) :: SetTimeout 5000 :: tr).
    change (pending (S n) ++ Resolves st :: rest)
      with (Resolves PROCESSING :: (pending n ++ Resolves st :: rest)).
    rewrite while_processing_turn by reflexivity.
    rewrite IH1. split; [reflexivity|]. split.
    + rewrite status_queries_cons_get, status_queries_cons_timer, IH2.
      reflexivity.
    + exact IH3.
Qed.

Lemma uploadFile_resolved (f : File) (r : Remote) (u : RemoteFile)
    (st : string) (rest : list (reply string)) :
  uploadReply r = Resolves u ->
  statusReplies r = Resolves st :: rest ->
  uploadFile f r =
  let '(o, tr, unread) := while_processing u (with_state u st) rest in
  (o, FilesUpload (name f) :: FilesGet (remoteName u) :: tr, unread).
Proof. intros Hu Hs. unfold uploadFile. rewrite Hu, Hs. reflexivity. Qed.

Lemma uploadFile_pending (f : File) (r : Remote) (u : RemoteFile)
    (st : string) (rest : list (reply string)) (n : nat) :
  uploadReply r = Resolves u ->
  statusReplies r = pending n ++ Resolves st :: rest ->
  st <> PROCESSING ->
  exists tr,
    uploadFile f r = (after_loop (with_state u st), tr, rest)
    /\ status_queries tr = S n
    /\ existsb is_generate tr = false.
Proof.
  intros Hu Hs Hst.
  destruct n as [|n].
  - exists [FilesUpload (name f); FilesGet (remoteName u)].
    rewrite (uploadFile_resolved f r u st rest Hu Hs).
    apply String.eqb_neq in Hst.
    rewrite while_processing_exit by exact Hst.
    repeat split.
  - destruct (while_processing_pending u st rest n Hst) as [tr [H1 [H2 H3]]].
    exists (FilesUpload (name f) :: FilesGet (remoteName u) :: tr).
    rewrite (uploadFile_resolved f r u PROCESSING
               (pending n ++ Resolves st :: rest) Hu Hs).
    rewrite H1. split; [reflexivity|]. split.
    + change (status_queries
                (FilesUpload (name f) :: FilesGet (remoteName u) :: tr))
        with (S (status_queries tr)).
      rewrite H2. reflexivity.
    + exact H3.
Qed.

(** C1.  When the service reports [PROCESSING] [n] times and then a state
    [st] that is neither [PROCESSING] nor [FAILED], [uploadFile] returns the
    file in state [st] after exactly [n + 1] status queries, one per
    reported state, and asks for none of the answers behind [st]. *)
Theorem uploadFile_polls_until_ready (f : File) (r : Remote)
    (u : RemoteFile) (st : string) (rest : list (reply string)) (n : nat) :
  uploadReply r = Resolves u ->
  statusReplies r = pending n ++ Resolves st :: rest ->
  is_ready st = true ->
  exists res tr,
    uploadFile f r = (Returned res, tr, rest)
    /\ state res = st
    /\ status_queries tr = S n.
Proof.
  intros Hu Hs Hready. apply is_ready_spec in Hready.
  destruct Hready as [Hp Hf].
  destruct (uploadFile_pending f r u st rest n Hu Hs Hp) as [tr [H1 [H2 _]]].
  exists (with_state u st), tr. split; [|split; [reflexivity | exact H2]].
  rewrite H1. unfold after_loop. cbn [with_state state].
  apply String.eqb_neq in Hf. rewrite Hf. reflexivity.
Qed.

Lemma uploadFile_polls_until_ready_witness :
  exists res tr,
    uploadFile clip
      (mkRemote (Resolves stored_clip)
         [Resolves PROCESSING; Resolves PROCESSING; Resolves ACTIVE]) =
    (Returned res, tr, [])
    /\ state res = ACTIVE
    /\ status_queries tr = 3.
Proof.
  apply (uploadFile_polls_until_ready clip
           (mkRemote (Resolves stored_clip)
              [Resolves PROCESSING; Resolves PROCESSING; Resolves ACTIVE])
           stored_clip ACTIVE [] 2); reflexivity.
Defined.

(** The requests of that run, in order. *)
Example uploadFile_spec_sample :
  uploadFile clip
    (mkRemote (Resolves stored_clip)
       [Resolves PROCESSING; Resolves PROCESSING; Resolves ACTIVE]) =
  (Returned (with_state stored_clip ACTIVE),
   [ FilesUpload "clip.mp4";
     FilesGet "files/clip";
     FilesGet "files/clip"; SetTimeout 5000;
     FilesGet "files/clip"; SetTimeout 5000 ],
   []).
Proof. reflexivity. Qed.

(** ** [uploadVideo] *)

Lemma while_processing_sends_no_generate (u : RemoteFile)
    (script : list (reply string)) :
  forall getFile,
    existsb is_generate (snd (fst (while_processing u getFile script))) =
    false.
Proof.
  induction script as [|a rest IH]; intros getFile.
  - simpl. destruct (String.eqb (state getFile) PROCESSING); reflexivity.
  - simpl. destruct (String.eqb (state getFile) PROCESSING); [|reflexivity].
    destruct a as [st|]; [|reflexivity].
    specialize (IH (with_state u st)).
    destruct (while_processing u (with_state u st) rest) as [[o tr] left'].
    exact IH.
Qed.

Lemma uploadFile_sends_no_generate (f : File) (r : Remote) :
  existsb is_generate (snd (fst (uploadFile f r))) = false.
Proof.
  unfold uploadFile. destruct (uploadReply r) as [u|]; [|reflexivity].
  destruct (statusReplies r) as [|[st|] rest]; try reflexivity.
  pose proof (while_processing_sends_no_generate u rest (with_state u st))
    as H.
  destruct (while_processing u (with_state u st) rest) as [[o tr] left'].
  exact H.
Qed.

Lemma uploadFile_sends_upload_first (f : File) (r : Remote) :
  exists tr, snd (fst (uploadFile f r)) = FilesUpload (name f) :: tr.
Proof.
  unfold uploadFile. destruct (uploadReply r) as [u|]; [|eexists; reflexivity].
  destruct (statusReplies r) as [|[st|] rest]; try (eexists; reflexivity).
  destruct (while_processing u (with_state u st) rest) as [[o tr] left'].
  eexists; reflexivity.
Qed.

Lemma uploadVideo_video (createObjectURL : File -> string) (f : File)
    (files : list File) (r : Remote) (s : AppState) :
  String.prefix "video/" (type f) = true ->
  uploadVideo createObjectURL (f :: files) r s =
  let s2 :=
    setVidUrl (Some (createObjectURL f))
      (setVideoError false (setIsLoadingVideo true s)) in
  match uploadFile f r with
  | (Returned res, tr, _) =>
      (Returned tt, setIsLoadingVideo false (setFile (Some res) s2), tr)
  | (Thrown _, tr, _) =>
      (Returned tt, setIsLoadingVideo false (setVideoError true s2), tr)
  | (Unsettled, tr, _) => (Unsettled, s2, tr)
  end.
Proof. intros H. unfold uploadVideo. rewrite H. reflexivity. Qed.

(** C8.  For a dropped file, a submit call is issued exactly when its media
    type starts with [video/].  When it does not, [uploadVideo] returns at
    once having sent nothing, with [videoError] set, the video URL cleared
    and [isLoadingVideo] cleared; a drop without a file sends nothing
    either. *)
Theorem upload_only_for_video (createObjectURL : File -> string)
    (f : File) (files : list File) (r : Remote) (s : AppState) :
  existsb is_upload (snd (uploadVideo createObjectURL (f :: files) r s)) =
  String.prefix "video/" (type f)
  /\ (String.prefix "video/" (type f) = false ->
      exists s',
        uploadVideo createObjectURL (f :: files) r s = (Returned tt, s', [])
        /\ videoError s' = true
        /\ vidUrl s' = None
        /\ isLoadingVideo s' = false)
  /\ snd (uploadVideo createObjectURL [] r s) = [].
Proof.
  split; [|split; [|reflexivity]].
  - destruct (String.prefix "video/" (type f)) eqn:Hp.
    + rewrite (uploadVideo_video createObjectURL f files r s Hp).
      destruct (uploadFile_sends_upload_first f r) as [tr Htr].
      destruct (uploadFile f r) as [[o tr'] left']. simpl in Htr. subst tr'.
      destruct o; reflexivity.
    + unfold uploadVideo. rewrite Hp. reflexivity.
  - intros Hp. unfold uploadVideo. rewrite Hp.
    eexists. split; [reflexivity|]. repeat split.
Qed.

Example text_file_is_rejected :
  uploadVideo sample_url [notes]
    (mkRemote (Resolves stored_clip) [Resolves ACTIVE]) sample_state =
  (Returned tt,
   setVidUrl None
     (setIsLoadingVideo false
        (setVideoError true
           (setVideoError false (setIsLoadingVideo true sample_state)))),
   []).
Proof. reflexivity. Qed.

Section Failure.

Variable modes : list (string * ModeConfig).
Variable createObjectURL : File -> string.

(** What a later [onModeSelect] sends names the file of the state. *)
Lemma onModeSelect_request_file (mode : ModeKey) (s : AppState)
    (request : event) :
  fst (onModeSelect_request modes mode s) = Returned request ->
  exists p g,
    file s = Some g
    /\ request = ModelsGenerateContent p declared_tools (mimeType g) (uri g).
Proof.
  unfold onModeSelect_request.
  destruct (promptText modes mode s) as [p| |]; simpl; try discriminate.
  unfold generateContent. destruct (file s) as [g|]; [|discriminate].
  intros H. injection H as <-. exists p, g. split; reflexivity.
Qed.

(** C2.  When the service reports [PROCESSING] [n] times and then [FAILED],
    [uploadFile] throws its processing-failed error after the [n + 1]
    queries; [uploadVideo] catches it, sets [videoError], clears
    [isLoadingVideo] and returns, having sent no generation request and
    leaving the stored handle as it was, so that a generation request sent
    afterwards can only name a file stored before this upload. *)
Theorem failed_processing_stops_pipeline (f : File) (files : list File)
    (r : Remote) (u : RemoteFile) (rest : list (reply string)) (n : nat)
    (s : AppState) :
  String.prefix "video/" (type f) = true ->
  uploadReply r = Resolves u ->
  statusReplies r = pending n ++ Resolves FAILED :: rest ->
  (exists tr,
     uploadFile f r = (Thrown (Error "File processing failed."), tr, rest)
     /\ status_queries tr = S n)
  /\ exists s' tr,
       uploadVideo createObjectURL (f :: files) r s = (Returned tt, s', tr)
       /\ videoError s' = true
       /\ isLoadingVideo s' = false
       /\ file s' = file s
       /\ existsb is_generate tr = false
       /\ forall mode request,
            fst (onModeSelect_request modes mode s') = Returned request ->
            exists p g,
              file s = Some g
              /\ request =
                 ModelsGenerateContent p declared_tools (mimeType g) (uri g).
Proof.
  intros Hp Hu Hs.
  assert (Hne : FAILED <> PROCESSING) by discriminate.
  destruct (uploadFile_pending f r u FAILED rest n Hu Hs Hne)
    as [tr [H1 [H2 H3]]].
  change (after_loop (with_state u FAILED))
    with (@Thrown RemoteFile (Error "File processing failed.")) in H1.
  split; [exists tr; split; assumption|].
  rewrite (uploadVideo_video createObjectURL f files r s Hp), H1.
  cbv zeta iota beta.
  eexists. exists tr. split; [reflexivity|].
  repeat (split; [first [reflexivity | exact H3]|]).
  intros mode request Hreq.
  exact (onModeSelect_request_file mode _ request Hreq).
Qed.

End Failure.

Lemma failed_processing_stops_pipeline_witness :
  (exists tr,
     uploadFile clip
       (mkRemote (Resolves stored_clip)
                 [Resolves PROCESSING; Resolves FAILED]) =
     (Thrown (Error "File processing failed."), tr, [])
     /\ status_queries tr = 2)
  /\ exists s' tr,
       uploadVideo sample_url [clip]
         (mkRemote (Resolves stored_clip)
                   [Resolves PROCESSING; Resolves FAILED]) sample_state =
       (Returned tt, s', tr)
       /\ videoError s' = true
       /\ isLoadingVideo s' = false
       /\ file s' = file sample_state
       /\ existsb is_generate tr = false
       /\ forall mode request,
            fst (onModeSelect_request sample_modes mode s') =
            Returned request ->
            exists p g,
              file sample_state = Some g
              /\ request =
                 ModelsGenerateContent p declared_tools (mimeType g) (uri g).
Proof.
  apply (failed_processing_stops_pipeline sample_modes sample_url clip []
           (mkRemote (Resolves stored_clip)
                     [Resolves PROCESSING; Resolves FAILED])
           stored_clip [] 1 sample_state); reflexivity.
Defined.

(** ** The Chart prompt *)

Lemma chart_controls_app (before after : list ChartControl) (s : AppState) :
  chart_controls (before ++ after) s =
  chart_controls after (chart_controls before s).
Proof. unfold chart_controls. apply fold_left_app. Qed.

Lemma chart_controls_selectedMode (cs : list ChartControl) :
  forall s, selectedMode (chart_controls cs s) = selectedMode s.
Proof.
  induction cs as [|c rest IH]; intros s; [reflexivity|].
  change (chart_controls (c :: rest) s)
    with (chart_controls rest (chart_control c s)).
  rewrite IH. destruct c; reflexivity.
Qed.

Lemma only_typing_chartMode (cs : list ChartControl) :
  only_typing cs ->
  forall s, chartMode (chart_controls cs s) = chartMode s.
Proof.
  induction 1 as [|c rest Hc Hrest IH]; intros s; [reflexivity|].
  change (chart_controls (c :: rest) s)
    with (chart_controls rest (chart_control c s)).
  rewrite IH. destruct c; [contradiction | reflexivity | contradiction].
Qed.

Section ChartPrompt.

Variable modes : list (string * ModeConfig).
Variable f : JsValue -> string.
Variable sm : list (string * string).
Hypothesis Chart_mode :
  assoc "Chart" modes = Some (mkMode (PromptFn f) (Some sm)).

Lemma promptText_Chart (s : AppState) :
  promptText modes "Chart" s = Returned (f (chartInput sm s)).
Proof. unfold promptText. rewrite Chart_mode. reflexivity. Qed.

(** With a preset selected the custom text is not read at all. *)
Lemma chartInput_preset (s : AppState) (m fragment : string) :
  chartMode s = Some m ->
  m <> "Custom" ->
  assoc m sm = Some fragment ->
  chartInput sm s = Str fragment.
Proof.
  intros Hm Hne Hfrag. unfold chartInput, isCustomChartMode.
  rewrite Hm. apply String.eqb_neq in Hne.
  cbn [is_Custom property_key]. rewrite Hne, andb_false_r.
  rewrite (js_get_own _ _ _ Hfrag). reflexivity.
Qed.

Lemma chartInput_custom (s : AppState) :
  selectedMode s = "Chart" ->
  chartMode s = Some "Custom" ->
  chartInput sm s = Str (chartPrompt s).
Proof.
  intros Hsel Hm. unfold chartInput, isCustomChartMode, isChartMode.
  rewrite Hsel, Hm. reflexivity.
Qed.

(** C7.  In Chart mode the prompt is compiled from whichever input was
    chosen last.  After a click on a preset sub-mode [m] (not [Custom]),
    whatever was done before and whatever is typed into the custom field
    afterwards, the prompt is built from the canned fragment of [m]; after
    a focus of the custom field, and whatever is typed afterwards, it is
    built from the custom text. *)
Theorem last_chosen_input_wins (s : AppState)
    (before after : list ChartControl) (m fragment : string) :
  selectedMode s = "Chart" ->
  only_typing after ->
  m <> "Custom" ->
  assoc m sm = Some fragment ->
  promptText modes "Chart"
    (chart_controls (before ++ ClickSubMode m :: after) s) =
  Returned (f (Str fragment))
  /\ promptText modes "Chart"
       (chart_controls (before ++ FocusText :: after) s) =
     Returned
       (f (Str (chartPrompt
                  (chart_controls (before ++ FocusText :: after) s)))).
Proof.
  intros Hsel Hafter Hne Hfrag. rewrite !promptText_Chart. split.
  - rewrite (chartInput_preset _ m fragment); [reflexivity | | exact Hne
                                                | exact Hfrag].
    rewrite chart_controls_app.
    change (chart_controls (ClickSubMode m :: after) ?x)
      with (chart_controls after (chart_control (ClickSubMode m) x)).
    rewrite (only_typing_chartMode after Hafter). reflexivity.
  - rewrite chartInput_custom; [reflexivity | |].
    + rewrite chart_controls_selectedMode. exact Hsel.
    + rewrite chart_controls_app.
      change (chart_controls (FocusText :: after) ?x)
        with (chart_controls after (chart_control FocusText x)).
      rewrite (only_typing_chartMode after Hafter). reflexivity.
Qed.

End ChartPrompt.

Lemma last_chosen_input_wins_witness :
  promptText sample_modes "Chart"
    (chart_controls
       ([FocusText; ChangeText "count the dogs"]
        ++ ClickSubMode "Importance" :: [ChangeText "count the cats"])
       sample_state) =
  Returned "Chart the video: rate the importance of each scene"
  /\ promptText sample_modes "Chart"
       (chart_controls
          ([FocusText; ChangeText "count the dogs"]
           ++ FocusText :: [ChangeText "count the cats"])
          sample_state) =
     Returned "Chart the video: count the cats".
Proof.
  apply (last_chosen_input_wins sample_modes _ _ eq_refl sample_state
           [FocusText; ChangeText "count the dogs"]
           [ChangeText "count the cats"]
           "Importance" "rate the importance of each scene").
  - reflexivity.
  - repeat constructor.
  - discriminate.
  - reflexivity.
Defined.

(** The tie-break of the specification: sub-mode selected, then text typed
    into the custom field without a focus of it. *)
Example typing_without_focus_keeps_preset :
  promptText sample_modes "Chart"
    (chart_controls [ClickSubMode "Excitement"; ChangeText "count the dogs"]
                    sample_state) =
  Returned "Chart the video: rate the excitement of each scene".
Proof. reflexivity. Qed.

(** ** Uploads in flight *)

Lemma replace_nth_length {A} (x : A) (l : list A) :
  forall i, List.length (replace_nth i x l) = List.length l.
Proof.
  induction l as [|y rest IH]; intros i; [destruct i; reflexivity|].
  destruct i; simpl; [reflexivity | rewrite IH; reflexivity].
Qed.

Lemma nth_error_replace_nth_same {A} (x : A) (l : list A) :
  forall i, i < List.length l -> nth_error (replace_nth i x l) i = Some x.
Proof.
  induction l as [|y rest IH]; intros i Hi; [simpl in Hi; lia|].
  destruct i; simpl; [reflexivity|]. apply IH. simpl in Hi. lia.
Qed.

Lemma nth_error_replace_nth_other {A} (x : A) (l : list A) :
  forall i j, i <> j -> nth_error (replace_nth i x l) j = nth_error l j.
Proof.
  induction l as [|y rest IH]; intros i j Hij; [destruct i; reflexivity|].
  destruct i, j; simpl; try reflexivity; [congruence|].
  apply IH. congruence.
Qed.

Lemma sent_by_app (i j : nat) (app0 : AppState) (rs : list Run)
    (log : list (nat * event)) (evs : list event) :
  sent_by i (mkSystem app0 rs (log ++ tag j evs)) =
  sent_by i (mkSystem app0 rs log) ++ (if Nat.eqb j i then evs else []).
Proof.
  unfold sent_by. cbn [sent]. rewrite filter_app, map_app. f_equal.
  unfold tag. destruct (Nat.eqb j i) eqn:Hji.
  - induction evs as [|e rest IH]; [reflexivity|].
    simpl. rewrite Hji. simpl. rewrite IH. reflexivity.
  - induction evs as [|e rest IH]; [reflexivity|].
    simpl. rewrite Hji. exact IH.
Qed.

Lemma resume_alone_stuck (run : Run) (k : nat) :
  resume run = None -> resume_alone k run = (run, [], no_effect).
Proof. intros H. destruct k; simpl; [|rewrite H]; reflexivity. Qed.

(** The setters a resumed call applies are those of lines 176-180, applied
    when it finishes and at no other time; none of them writes the result
    list. *)
Lemma resume_effect (run run' : Run) (evs : list event) (eff : effect) :
  resume run = Some (run', evs, eff) ->
  match cont run' with
  | Finished o => forall s, eff s = settle o s
  | _ => forall s, eff s = s
  end.
Proof.
  unfold resume, loop_test, finish.
  destruct (cont run) as [|u|u|u g|o]; [| | | |discriminate].
  - destruct (uploadReply (remote run)); intros H; injection H as <- <- <-;
      simpl; intros; reflexivity.
  - destruct (statusReplies (remote run)) as [|[st|] rest]; [discriminate| |].
    + destruct (String.eqb (state (with_state u st)) PROCESSING);
        intros H; injection H as <- <- <-; simpl; intros; reflexivity.
    + intros H; injection H as <- <- <-; simpl; intros; reflexivity.
  - destruct (statusReplies (remote run)) as [|[st|] rest]; [discriminate| |];
      intros H; injection H as <- <- <-; simpl; intros; reflexivity.
  - destruct (String.eqb (state g) PROCESSING);
      intros H; injection H as <- <- <-; simpl; intros; reflexivity.
Qed.

Lemma settle_timecodeList (o : outcome RemoteFile) (s : AppState) :
  timecodeList (settle o s) = timecodeList s.
Proof. destruct o; reflexivity. Qed.

Lemma resume_timecodeList (run run' : Run) (evs : list event) (eff : effect)
    (s : AppState) :
  resume run = Some (run', evs, eff) ->
  timecodeList (eff s) = timecodeList s.
Proof.
  intros H. pose proof (resume_effect run run' evs eff H) as He.
  destruct (cont run'); rewrite He; try reflexivity.
  apply settle_timecodeList.
Qed.

Section InFlight.

Variable createObjectURL : File -> string.

Lemma drop_timecodeList (files : list File) (r : Remote) (s : AppState) :
  timecodeList (snd (drop createObjectURL files r s)) = timecodeList s.
Proof.
  unfold drop. destruct files as [|f rest]; [reflexivity|].
  destruct (negb (String.prefix "video/" (type f))); reflexivity.
Qed.

Lemma step_timecodeList (a : action) (sys : System) :
  timecodeList (app (step createObjectURL a sys)) = timecodeList (app sys).
Proof.
  destruct a as [files r|i]; simpl.
  - pose proof (drop_timecodeList files r (app sys)) as H.
    destruct (drop createObjectURL files r (app sys)) as [[[run|] evs] s];
      exact H.
  - destruct (nth_error (runs sys) i) as [run|]; [|reflexivity].
    destruct (resume run) as [[[run' evs] eff]|] eqn:Hr; [|reflexivity].
    exact (resume_timecodeList run run' evs eff (app sys) Hr).
Qed.

(** A step leaves every other run, and what it has sent, alone. *)
Lemma step_other_run (a : action) (sys : System) (i : nat) (run : Run) :
  nth_error (runs sys) i = Some run ->
  a <> Resume i ->
  nth_error (runs (step createObjectURL a sys)) i = Some run
  /\ sent_by i (step createObjectURL a sys) = sent_by i sys.
Proof.
  intros Hrun Ha.
  assert (Hi : i < List.length (runs sys)).
  { apply nth_error_Some. rewrite Hrun. discriminate. }
  destruct a as [files r|j]; simpl.
  - destruct (drop createObjectURL files r (app sys)) as [[[run'|] evs] s].
    + cbn [runs]. split.
      * rewrite nth_error_app1 by exact Hi. exact Hrun.
      * rewrite sent_by_app.
        replace (Nat.eqb (List.length (runs sys)) i) with false
          by (symmetry; apply Nat.eqb_neq; lia).
        rewrite app_nil_r. reflexivity.
    + split; [exact Hrun | reflexivity].
  - assert (Hji : j <> i) by congruence.
    destruct (nth_error (runs sys) j) as [other|];
      [|split; [exact Hrun | reflexivity]].
    destruct (resume other) as [[[other' evs] eff]|];
      [|split; [exact Hrun | reflexivity]].
    cbn [runs]. split.
    + rewrite nth_error_replace_nth_other by exact Hji. exact Hrun.
    + rewrite sent_by_app.
      replace (Nat.eqb j i) with false by (symmetry; apply Nat.eqb_neq; lia).
      rewrite app_nil_r. reflexivity.
Qed.

Lemma step_own_run (sys : System) (i : nat) (run run' : Run)
    (evs : list event) (eff : effect) :
  nth_error (runs sys) i = Some run ->
  resume run = Some (run', evs, eff) ->
  step createObjectURL (Resume i) sys =
  mkSystem (eff (app sys)) (replace_nth i run' (runs sys))
           (sent sys ++ tag i evs).
Proof. intros Hrun Hres. simpl. rewrite Hrun, Hres. reflexivity. Qed.

(** Whatever a schedule does besides, run [i] goes through the
    continuations, and sends the requests, of its run alone. *)
Lemma run_in_schedule (sched : list action) :
  forall (sys : System) (i : nat) (run : Run),
    nth_error (runs sys) i = Some run ->
    nth_error (runs (exec createObjectURL sched sys)) i =
    Some (fst (fst (resume_alone (resumes_of i sched) run)))
    /\ sent_by i (exec createObjectURL sched sys) =
       sent_by i sys ++ snd (fst (resume_alone (resumes_of i sched) run)).
Proof.
  induction sched as [|a rest IH]; intros sys i run Hrun.
  - simpl. rewrite app_nil_r. split; [exact Hrun | reflexivity].
  - change (exec createObjectURL (a :: rest) sys)
      with (exec createObjectURL rest (step createObjectURL a sys)).
    destruct a as [files r|j].
    + destruct (step_other_run (Drop files r) sys i run Hrun) as [H1 H2];
        [discriminate|].
      destruct (IH _ i run H1) as [IH1 IH2].
      change (resumes_of i (Drop files r :: rest)) with (resumes_of i rest).
      rewrite IH1, IH2, H2. split; reflexivity.
    + destruct (Nat.eqb j i) eqn:Hji.
      * apply Nat.eqb_eq in Hji. subst j.
        assert (Hk : resumes_of i (Resume i :: rest) = S (resumes_of i rest)).
        { unfold resumes_of. simpl. rewrite Nat.eqb_refl. reflexivity. }
        rewrite Hk. clear Hk. cbn [resume_alone].
        destruct (resume run) as [[[run' evs] eff]|] eqn:Hres.
        -- rewrite (step_own_run sys i run run' evs eff Hrun Hres).
           assert (Hrun' : nth_error
                             (runs (mkSystem (eff (app sys))
                                      (replace_nth i run' (runs sys))
                                      (sent sys ++ tag i evs))) i =
                           Some run').
           { cbn [runs]. apply nth_error_replace_nth_same.
             apply nth_error_Some. rewrite Hrun. discriminate. }
           destruct (IH _ i run' Hrun') as [IH1 IH2].
           rewrite IH1, IH2, sent_by_app, Nat.eqb_refl.
           destruct (resume_alone (resumes_of i rest) run')
             as [[last evs'] eff'].
           cbn [fst snd]. rewrite <- app_assoc.
           split; reflexivity.
        -- assert (Hsame : step createObjectURL (Resume i) sys = sys).
           { simpl. rewrite Hrun, Hres. reflexivity. }
           rewrite Hsame. destruct (IH sys i run Hrun) as [IH1 IH2].
           rewrite IH1, IH2, (resume_alone_stuck run _ Hres).
           cbn [fst snd]. rewrite app_nil_r. split; reflexivity.
      * assert (Hne : Resume j <> Resume i).
        { intros E. injection E as E. subst j.
          rewrite Nat.eqb_refl in Hji. discriminate. }
        destruct (step_other_run (Resume j) sys i run Hrun Hne) as [H1 H2].
        destruct (IH _ i run H1) as [IH1 IH2].
        assert (Hk : resumes_of i (Resume j :: rest) = resumes_of i rest).
        { unfold resumes_of. simpl. rewrite Hji. reflexivity. }
        rewrite Hk, IH1, IH2, H2. split; reflexivity.
Qed.

Lemma exec_timecodeList (sched : list action) :
  forall sys,
    timecodeList (app (exec createObjectURL sched sys)) =
    timecodeList (app sys).
Proof.
  induction sched as [|a rest IH]; intros sys; [reflexivity|].
  change (exec createObjectURL (a :: rest) sys)
    with (exec createObjectURL rest (step createObjectURL a sys)).
  rewrite IH. apply step_timecodeList.
Qed.

End InFlight.

(** ** One upload alone: the suspended call and [uploadVideo] agree *)

Lemma loop_test_alone (up : reply RemoteFile) (u : RemoteFile)
    (script : list (reply string)) :
  forall (getFile : RemoteFile) (fuel : nat)
         (o : outcome RemoteFile) (tr : list event)
         (left' : list (reply string))
         (run1 last : Run) (evs1 evs2 : list event) (eff1 eff2 : effect),
    2 * List.length script + 1 <= fuel ->
    while_processing u getFile script = (o, tr, left') ->
    loop_test u getFile (mkRemote up script) = (run1, evs1, eff1) ->
    resume_alone fuel run1 = (last, evs2, eff2) ->
    evs1 ++ evs2 = tr
    /\ (forall s, eff2 (eff1 s) = settle o s)
    /\ (o <> Unsettled -> last = mkRun (Finished o) (mkRemote up left')).
Proof.
  induction script as [|a rest IH];
    intros getFile fuel o tr left' run1 last evs1 evs2 eff1 eff2
           Hfuel Hw Hl Hr;
    unfold loop_test in Hl;
    destruct (String.eqb (state getFile) PROCESSING) eqn:Hp.
  - simpl in Hw. rewrite Hp in Hw.
    injection Hw as <- <- <-. injection Hl as <- <- <-.
    rewrite resume_alone_stuck in Hr by reflexivity.
    injection Hr as <- <- <-.
    split; [reflexivity|]. split; [reflexivity|].
    intros H. contradiction H. reflexivity.
  - rewrite while_processing_exit in Hw by exact Hp.
    injection Hw as <- <- <-. unfold finish in Hl. injection Hl as <- <- <-.
    rewrite resume_alone_stuck in Hr by reflexivity.
    injection Hr as <- <- <-.
    split; [reflexivity|]. split; [reflexivity|]. reflexivity.
  - injection Hl as <- <- <-.
    destruct a as [st|].
    + rewrite while_processing_turn in Hw by exact Hp.
      destruct (while_processing u (with_state u st) rest)
        as [[o' tr'] left''] eqn:Hw'.
      injection Hw as <- <- <-.
      destruct fuel as [|[|fuel]]; [simpl in Hfuel; lia ..|].
      cbn [resume_alone resume cont remote statusReplies] in Hr.
      change (unread (mkRemote up (Resolves st :: rest)) rest)
        with (mkRemote up rest) in Hr.
      destruct (loop_test u (with_state u st) (mkRemote up rest))
        as [[run3 evs3] eff3] eqn:Hl3.
      destruct (resume_alone fuel run3) as [[last' evs4] eff4] eqn:Hr4.
      injection Hr as <- <- <-.
      assert (Hfuel' : 2 * List.length rest + 1 <= fuel)
        by (simpl in Hfuel; lia).
      destruct (IH _ _ _ _ _ _ _ _ _ _ _ Hfuel' Hw' Hl3 Hr4)
        as [H1 [H2 H3]].
      split; [|split].
      * simpl. rewrite H1. reflexivity.
      * intros s. apply H2.
      * exact H3.
    + simpl in Hw. rewrite Hp in Hw. injection Hw as <- <- <-.
      destruct fuel as [|fuel]; [simpl in Hfuel; lia|].
      cbn [resume_alone resume cont remote statusReplies] in Hr.
      unfold finish in Hr.
      rewrite resume_alone_stuck in Hr by reflexivity.
      injection Hr as <- <- <-.
      split; [reflexivity|]. split; [reflexivity|]. reflexivity.
  - rewrite while_processing_exit in Hw by exact Hp.
    injection Hw as <- <- <-. unfold finish in Hl. injection Hl as <- <- <-.
    rewrite resume_alone_stuck in Hr by reflexivity.
    injection Hr as <- <- <-.
    split; [reflexivity|]. split; [reflexivity|]. reflexivity.
Qed.

Lemma uploadFile_alone (f : File) (r : Remote) (fuel : nat)
    (o : outcome RemoteFile) (tr : list event) (left' : list (reply string))
    (last : Run) (evs : list event) (eff : effect) :
  2 * List.length (statusReplies r) + 2 <= fuel ->
  uploadFile f r = (o, tr, left') ->
  resume_alone fuel (mkRun AwaitUpload r) = (last, evs, eff) ->
  FilesUpload (name f) :: evs = tr
  /\ (forall s, eff s = settle o s)
  /\ (o <> Unsettled -> last = mkRun (Finished o) (unread r left')).
Proof.
  intros Hfuel Hu Hr. unfold uploadFile in Hu.
  destruct r as [up script]. cbn [uploadReply statusReplies] in *.
  destruct fuel as [|[|fuel]]; [lia ..|].
  destruct up as [u|].
  - destruct script as [|[st|] rest].
    + injection Hu as <- <- <-. simpl in Hr. injection Hr as <- <- <-.
      split; [reflexivity|]. split; [reflexivity|].
      intros H. contradiction H. reflexivity.
    + destruct (while_processing u (with_state u st) rest)
        as [[o' tr'] left''] eqn:Hw.
      injection Hu as <- <- <-.
      cbn [resume_alone resume cont remote uploadReply statusReplies] in Hr.
      change (unread (mkRemote (Resolves u) (Resolves st :: rest)) rest)
        with (mkRemote (Resolves u) rest) in Hr.
      destruct (loop_test u (with_state u st) (mkRemote (Resolves u) rest))
        as [[run3 evs3] eff3] eqn:Hl3.
      destruct (resume_alone fuel run3) as [[last' evs4] eff4] eqn:Hr4.
      injection Hr as <- <- <-.
      assert (Hfuel' : 2 * List.length rest + 1 <= fuel)
        by (simpl in Hfuel; lia).
      destruct (loop_test_alone (Resolves u) u rest _ _ _ _ _ _ _ _ _ _ _
                  Hfuel' Hw Hl3 Hr4) as [H1 [H2 H3]].
      split; [|split].
      * simpl. rewrite H1. reflexivity.
      * intros s. apply H2.
      * exact H3.
    + injection Hu as <- <- <-.
      cbn [resume_alone resume cont remote uploadReply statusReplies] in Hr.
      unfold finish in Hr.
      rewrite resume_alone_stuck in Hr by reflexivity.
      injection Hr as <- <- <-.
      split; [reflexivity|]. split; [reflexivity|]. reflexivity.
  - injection Hu as <- <- <-.
    cbn [resume_alone resume finish cont remote uploadReply] in Hr.
    injection Hr as <- <- <-.
    split; [reflexivity|]. split; [reflexivity|]. reflexivity.
Qed.

(** Dropping a video and resuming the call until nothing is left to resume
    gives the requests and the state of [uploadVideo]. *)
Lemma uploadVideo_alone (createObjectURL : File -> string) (f : File)
    (files : list File) (r : Remote) (s : AppState) (fuel : nat) :
  String.prefix "video/" (type f) = true ->
  2 * List.length (statusReplies r) + 2 <= fuel ->
  exists s1,
    drop createObjectURL (f :: files) r s =
    (Some (mkRun AwaitUpload r), [FilesUpload (name f)], s1)
    /\ snd (uploadVideo createObjectURL (f :: files) r s) =
       FilesUpload (name f)
       :: snd (fst (resume_alone fuel (mkRun AwaitUpload r)))
    /\ snd (fst (uploadVideo createObjectURL (f :: files) r s)) =
       snd (resume_alone fuel (mkRun AwaitUpload r)) s1.
Proof.
  intros Hp Hfuel.
  exists (setVidUrl (Some (createObjectURL f))
            (setVideoError false (setIsLoadingVideo true s))).
  split; [unfold drop; rewrite Hp; reflexivity|].
  rewrite (uploadVideo_video createObjectURL f files r s Hp). cbv zeta.
  destruct (uploadFile f r) as [[o tr] left'] eqn:Hu.
  destruct (resume_alone fuel (mkRun AwaitUpload r)) as [[last evs] eff]
    eqn:Hr.
  destruct (uploadFile_alone f r fuel o tr left' last evs eff Hfuel Hu Hr)
    as [H1 [H2 _]].
  cbn [fst snd]. rewrite H2, H1. destruct o; split; reflexivity.
Qed.

(** ** Superseded uploads *)

(** C9, as the code has it.  Nothing cancels an upload in flight.  Under
    any schedule, with newer uploads started and answered in between, a
    started call of [uploadVideo] reaches the continuation, and has sent
    the requests, of the same number of resumptions of it alone.  No step
    of any upload writes the result list.  And when the next answer lets
    the call finish with a file, it stores that file as the current handle,
    whatever handle the state held. *)
Theorem superseded_run_is_not_cancelled (createObjectURL : File -> string)
    (sys : System) (sched : list action) (i : nat) (run : Run) :
  nth_error (runs sys) i = Some run ->
  let sys' := exec createObjectURL sched sys in
  let alone := resume_alone (resumes_of i sched) run in
  nth_error (runs sys') i = Some (fst (fst alone))
  /\ sent_by i sys' = sent_by i sys ++ snd (fst alone)
  /\ timecodeList (app sys') = timecodeList (app sys)
  /\ forall g r evs eff,
       resume (fst (fst alone)) =
       Some (mkRun (Finished (Returned g)) r, evs, eff) ->
       file (app (step createObjectURL (Resume i) sys')) = Some g.
Proof.
  intros Hrun sys' alone.
  destruct (run_in_schedule createObjectURL sched sys i run Hrun)
    as [H1 H2].
  split; [exact H1|]. split; [exact H2|].
  split; [apply exec_timecodeList|].
  intros g r evs eff Hres.
  rewrite (step_own_run createObjectURL sys' i _ _ _ _ H1 Hres).
  cbn [app].
  pose proof (resume_effect _ _ _ _ Hres) as He. cbn [cont] in He.
  rewrite He. reflexivity.
Qed.

Lemma superseded_run_is_not_cancelled_witness :
  let sys := exec sample_url [Drop [clip] remote_clip] (boot sample_state) in
  let sched := [ Resume 0; Drop [talk] remote_talk; Resume 1; Resume 1;
                 Resume 0; Resume 0 ] in
  let sys' := exec sample_url sched sys in
  let alone := resume_alone (resumes_of 0 sched) (mkRun AwaitUpload remote_clip)
  in
  nth_error (runs sys') 0 = Some (fst (fst alone))
  /\ sent_by 0 sys' = sent_by 0 sys ++ snd (fst alone)
  /\ timecodeList (app sys') = timecodeList (app sys)
  /\ forall g r evs eff,
       resume (fst (fst alone)) =
       Some (mkRun (Finished (Returned g)) r, evs, eff) ->
       file (app (step sample_url (Resume 0) sys')) = Some g.
Proof.
  apply (superseded_run_is_not_cancelled sample_url
           (exec sample_url [Drop [clip] remote_clip] (boot sample_state))
           [ Resume 0; Drop [talk] remote_talk; Resume 1; Resume 1;
             Resume 0; Resume 0 ]
           0 (mkRun AwaitUpload remote_clip)).
  reflexivity.
Defined.

(** The two uploads of the sample, step by step: the newer upload stores its
    file, the older one goes on polling and then stores its own. *)
Example handle_after_superseding_upload :
  file (app (exec sample_url superseding_upload (boot sample_state))) =
  Some (with_state stored_talk ACTIVE).
Proof. reflexivity. Qed.

Example handle_after_stale_completion :
  file (app (exec sample_url
               (superseding_upload ++ stale_answers ++ [Resume 0])
               (boot sample_state))) =
  Some (with_state stored_clip ACTIVE).
Proof. reflexivity. Qed.

(** C9, as stated, fails on both counts.  After [talk] has superseded
    [clip], the call for [clip] sends a further status query when it is
    resumed; and once the call for [talk] has stored its file, the
    completion of the call for [clip] overwrites it. *)
Lemma stale_upload_overwrites_newer :
  ~ superseded_run_stops_polling sample_url
  /\ ~ newest_handle_is_kept sample_url.
Proof.
  split; intros H.
  - specialize (H sample_state superseding_upload 0). cbv zeta in H.
    assert (Hq : queries_of 0
                   (step sample_url (Resume 0)
                      (exec sample_url superseding_upload
                            (boot sample_state))) =
                 queries_of 0
                   (exec sample_url superseding_upload (boot sample_state))).
    { apply H. unfold superseded. simpl. lia. }
    discriminate Hq.
  - specialize (H sample_state (superseding_upload ++ stale_answers) 0 1
                  (with_state stored_talk ACTIVE)
                  (mkRemote (Resolves stored_talk) [])).
    cbv zeta in H.
    assert (Hf : file (app (step sample_url (Resume 0)
                              (exec sample_url
                                 (superseding_upload ++ stale_answers)
                                 (boot sample_state)))) =
                 Some (with_state stored_talk ACTIVE)).
    { apply H; [lia | reflexivity | reflexivity]. }
    discriminate Hf.
Qed.

(** * Further properties *)

(** ** [uploadFile] under any script *)

Lemma while_processing_accounting (u : RemoteFile)
    (script : list (reply string)) :
  forall (getFile : RemoteFile) (o : outcome RemoteFile) (tr : list event)
         (left' : list (reply string)),
    while_processing u getFile script = (o, tr, left') ->
    match o with
    | Unsettled =>
        status_queries tr = S (List.length script) /\ left' = []
    | _ => status_queries tr + List.length left' = List.length script
    end.
Proof.
  induction script as [|a rest IH]; intros getFile o tr left' H;
    destruct (String.eqb (state getFile) PROCESSING) eqn:Hp.
  - simpl in H. rewrite Hp in H. injection H as <- <- <-.
    split; reflexivity.
  - rewrite while_processing_exit in H by exact Hp.
    injection H as <- <- <-. unfold after_loop.
    destruct (String.eqb (state getFile) FAILED); reflexivity.
  - destruct a as [st|].
    + rewrite while_processing_turn in H by exact Hp.
      destruct (while_processing u (with_state u st) rest)
        as [[o' tr'] left''] eqn:Hw.
      injection H as <- <- <-.
      specialize (IH _ _ _ _ Hw).
      rewrite status_queries_cons_get, status_queries_cons_timer.
      destruct o'; simpl; [lia | lia |].
      destruct IH as [IH1 IH2]. split; [lia | exact IH2].
    + simpl in H. rewrite Hp in H. injection H as <- <- <-.
      reflexivity.
  - rewrite while_processing_exit in H by exact Hp.
    injection H as <- <- <-. unfold after_loop.
    destruct (String.eqb (state getFile) FAILED); reflexivity.
Qed.

(** X1.  Whatever the service answers, [uploadFile] sends one status query
    per answer it consumes: when it returns or throws, the queries sent and
    the answers left unread add up to the answers of the script; when its
    last query is never answered, it has sent one query more than there
    were answers. *)
Theorem uploadFile_query_accounting (f : File) (r : Remote)
    (u : RemoteFile) (o : outcome RemoteFile) (tr : list event)
    (left' : list (reply string)) :
  uploadReply r = Resolves u ->
  uploadFile f r = (o, tr, left') ->
  match o with
  | Unsettled =>
      status_queries tr = S (List.length (statusReplies r)) /\ left' = []
  | _ =>
      status_queries tr + List.length left' = List.length (statusReplies r)
  end.
Proof.
  intros Hu H. unfold uploadFile in H. rewrite Hu in H.
  destruct (statusReplies r) as [|[st|] rest].
  - injection H as <- <- <-. split; reflexivity.
  - destruct (while_processing u (with_state u st) rest)
      as [[o' tr'] left''] eqn:Hw.
    injection H as <- <- <-.
    pose proof (while_processing_accounting u rest _ _ _ _ Hw) as Hacc.
    change (status_queries
              (FilesUpload (name f) :: FilesGet (remoteName u) :: tr'))
      with (S (status_queries tr')).
    destruct o'; simpl; [lia | lia |].
    destruct Hacc as [H1 H2]. split; [lia | exact H2].
  - injection H as <- <- <-. reflexivity.
Qed.

Lemma uploadFile_query_accounting_witness :
  status_queries
    [ FilesUpload "clip.mp4"; FilesGet "files/clip"; FilesGet "files/clip" ]
  + List.length [Resolves ACTIVE] =
  List.length [Resolves PROCESSING; @Rejects string; Resolves ACTIVE].
Proof.
  exact (uploadFile_query_accounting clip
           (mkRemote (Resolves stored_clip)
              [Resolves PROCESSING; Rejects; Resolves ACTIVE])
           stored_clip (Thrown TransportError)
           [ FilesUpload "clip.mp4"; FilesGet "files/clip";
             FilesGet "files/clip" ]
           [Resolves ACTIVE] eq_refl eq_refl).
Defined.

Lemma while_processing_outcomes (u : RemoteFile)
    (script : list (reply string)) :
  forall getFile,
    match fst (fst (while_processing u getFile script)) with
    | Returned res => is_ready (state res) = true
    | Thrown e => e = TransportError \/ e = Error "File processing failed."
    | Unsettled => True
    end.
Proof.
  induction script as [|a rest IH]; intros getFile;
    destruct (String.eqb (state getFile) PROCESSING) eqn:Hp.
  - simpl. rewrite Hp. exact I.
  - rewrite while_processing_exit by exact Hp. cbn [fst]. unfold after_loop.
    destruct (String.eqb (state getFile) FAILED) eqn:Hf.
    + right. reflexivity.
    + unfold is_ready. rewrite Hp, Hf. reflexivity.
  - destruct a as [st|].
    + rewrite while_processing_turn by exact Hp.
      specialize (IH (with_state u st)).
      destruct (while_processing u (with_state u st) rest)
        as [[o' tr'] left'']. exact IH.
    + simpl. rewrite Hp. left. reflexivity.
  - rewrite while_processing_exit by exact Hp. cbn [fst]. unfold after_loop.
    destruct (String.eqb (state getFile) FAILED) eqn:Hf.
    + right. reflexivity.
    + unfold is_ready. rewrite Hp, Hf. reflexivity.
Qed.

(** X2.  Whatever the service answers, a file that [uploadFile] returns is
    in a state other than [PROCESSING] and [FAILED], and an error that it
    throws is the rejection of a request or its own processing-failed
    error. *)
Theorem uploadFile_outcomes (f : File) (r : Remote) :
  match fst (fst (uploadFile f r)) with
  | Returned res => is_ready (state res) = true
  | Thrown e => e = TransportError \/ e = Error "File processing failed."
  | Unsettled => True
  end.
Proof.
  unfold uploadFile.
  destruct (uploadReply r) as [u|]; [|left; reflexivity].
  destruct (statusReplies r) as [|[st|] rest];
    [exact I | | left; reflexivity].
  pose proof (while_processing_outcomes u rest (with_state u st)) as H.
  destruct (while_processing u (with_state u st) rest) as [[o tr] left'].
  exact H.
Qed.

Lemma while_processing_turns (u : RemoteFile) (st : string)
    (rest : list (reply string)) (n : nat) :
  st <> PROCESSING ->
  while_processing u (with_state u PROCESSING)
                   (pending n ++ Resolves st :: rest) =
  (after_loop (with_state u st), loop_turns u (S n), rest).
Proof.
  intros Hst. apply String.eqb_neq in Hst.
  induction n as [|n IH].
  - change (pending 0 ++ Resolves st :: rest) with (Resolves st :: rest).
    rewrite while_processing_turn by reflexivity.
    rewrite while_processing_exit by exact Hst. reflexivity.
  - change (pending (S n) ++ Resolves st :: rest)
      with (Resolves PROCESSING :: (pending n ++ Resolves st :: rest)).
    rewrite while_processing_turn by reflexivity.
    rewrite IH. reflexivity.
Qed.

(** X3.  When the service reports [PROCESSING] [n] times and then another
    state, the requests of [uploadFile] are the upload, the first query,
    and then [n] times a query followed by a timer of 5000 ms.  The timer
    is set after the answer to the query, not before the query: for
    [n >= 1] the last thing [uploadFile] does before it returns or throws
    is to wait 5000 ms after the final answer. *)
Theorem uploadFile_requests (f : File) (r : Remote) (u : RemoteFile)
    (st : string) (rest : list (reply string)) (n : nat) :
  uploadReply r = Resolves u ->
  statusReplies r = pending n ++ Resolves st :: rest ->
  st <> PROCESSING ->
  snd (fst (uploadFile f r)) =
  FilesUpload (name f) :: FilesGet (remoteName u) :: loop_turns u n.
Proof.
  intros Hu Hs Hst. destruct n as [|n].
  - rewrite (uploadFile_resolved f r u st rest Hu Hs).
    apply String.eqb_neq in Hst.
    rewrite while_processing_exit by exact Hst. reflexivity.
  - rewrite (uploadFile_resolved f r u PROCESSING
               (pending n ++ Resolves st :: rest) Hu Hs).
    rewrite (while_processing_turns u st rest n Hst). reflexivity.
Qed.

Lemma uploadFile_requests_witness :
  snd (fst (uploadFile clip
              (mkRemote (Resolves stored_clip)
                 [Resolves PROCESSING; Resolves FAILED]))) =
  [ FilesUpload "clip.mp4"; FilesGet "files/clip";
    FilesGet "files/clip"; SetTimeout 5000 ].
Proof.
  apply (uploadFile_requests clip
           (mkRemote (Resolves stored_clip)
              [Resolves PROCESSING; Resolves FAILED])
           stored_clip FAILED [] 1); [reflexivity | reflexivity |].
  discriminate.
Defined.

(** ** [uploadVideo] under any script *)


(** X5.  [uploadVideo] writes [vidUrl], [file], [isLoadingVideo] and
    [videoError] only: whatever is dropped and whatever the service
    answers, the result list, the active mode and the search query stay as
    they were, so the results of an earlier video remain in place when a
    new one is uploaded. *)
Theorem uploadVideo_keeps_results (createObjectURL : File -> string)
    (files : list File) (r : Remote) (s : AppState) :
  let s' := snd (fst (uploadVideo createObjectURL files r s)) in
  timecodeList s' = timecodeList s
  /\ activeMode s' = activeMode s
  /\ searchQuery s' = searchQuery s
  /\ isLoading s' = isLoading s
  /\ selectedMode s' = selectedMode s
  /\ chartMode s' = chartMode s
  /\ chartPrompt s' = chartPrompt s
  /\ chartLabel s' = chartLabel s
  /\ customPrompt s' = customPrompt s.
Proof.
  cbv zeta. unfold uploadVideo.
  destruct files as [|f rest]; [repeat split|].
  destruct (negb (String.prefix "video/" (type f))); [repeat split|].
  destruct (uploadFile f r) as [[o tr] left'].
  destruct o; repeat split.
Qed.

(** ** The stored handle under any schedule *)

Lemma resume_keeps_ready (run run' : Run) (evs : list event) (eff : effect)
    (s : AppState) :
  resume run = Some (run', evs, eff) ->
  ready_handle (file s) -> ready_handle (file (eff s)).
Proof.
  intros H Hs.
  assert (Hloop : forall u g r0,
             loop_test u g r0 = (run', evs, eff) ->
             ready_handle (file (eff s))).
  { intros u g r0 Hl. unfold loop_test in Hl.
    destruct (String.eqb (state g) PROCESSING) eqn:Hp.
    - injection Hl as <- <- <-. exact Hs.
    - unfold finish, after_loop in Hl.
      destruct (String.eqb (state g) FAILED) eqn:Hf;
        injection Hl as <- <- <-.
      + exact Hs.
      + simpl. unfold is_ready. rewrite Hp, Hf. reflexivity. }
  unfold resume, finish in H.
  destruct (cont run) as [|u|u|u g|o]; [| | | |discriminate].
  - destruct (uploadReply (remote run)); injection H as <- <- <-; exact Hs.
  - destruct (statusReplies (remote run)) as [|[st|] rest]; [discriminate| |].
    + injection H as H. exact (Hloop _ _ _ H).
    + injection H as <- <- <-. exact Hs.
  - destruct (statusReplies (remote run)) as [|[st|] rest]; [discriminate| |];
      injection H as <- <- <-; exact Hs.
  - injection H as H. exact (Hloop _ _ _ H).
Qed.

Lemma drop_keeps_file (createObjectURL : File -> string) (files : list File)
    (r : Remote) (s : AppState) :
  file (snd (drop createObjectURL files r s)) = file s.
Proof.
  unfold drop. destruct files as [|f rest]; [reflexivity|].
  destruct (negb (String.prefix "video/" (type f))); reflexivity.
Qed.

Lemma step_keeps_ready (createObjectURL : File -> string) (a : action)
    (sys : System) :
  ready_handle (file (app sys)) ->
  ready_handle (file (app (step createObjectURL a sys))).
Proof.
  intros H. destruct a as [files r|i]; simpl.
  - pose proof (drop_keeps_file createObjectURL files r (app sys)) as Hd.
    destruct (drop createObjectURL files r (app sys)) as [[[run|] evs] s];
      cbn [snd app] in *; rewrite Hd; exact H.
  - destruct (nth_error (runs sys) i) as [run|]; [|exact H].
    destruct (resume run) as [[[run' evs] eff]|] eqn:Hr; [|exact H].
    exact (resume_keeps_ready run run' evs eff (app sys) Hr H).
Qed.

(** X6.  Under any schedule of drops and answers, with any number of
    uploads in flight, a handle stored by [uploadVideo] is in a state other
    than [PROCESSING] and [FAILED]: if the stored handle is absent or in
    such a state, it is so after every step. *)
Theorem stored_handle_stays_ready (createObjectURL : File -> string)
    (sched : list action) (sys : System) :
  ready_handle (file (app sys)) ->
  ready_handle (file (app (exec createObjectURL sched sys))).
Proof.
  revert sys. induction sched as [|a rest IH]; intros sys H; [exact H|].
  change (exec createObjectURL (a :: rest) sys)
    with (exec createObjectURL rest (step createObjectURL a sys)).
  apply IH. apply step_keeps_ready. exact H.
Qed.

Lemma stored_handle_stays_ready_witness :
  ready_handle
    (file (app (exec sample_url
                  (superseding_upload ++ stale_answers ++ [Resume 0])
                  (boot sample_state)))).
Proof.
  apply (stored_handle_stays_ready sample_url
           (superseding_upload ++ stale_answers ++ [Resume 0])
           (boot sample_state)).
  exact I.
Defined.

(** ** [onModeSelect] under any reply *)

Lemma traverse_normalize_fields (l : list Timecode) :
  forall result,
    traverse normalize l = Some result -> Forall2 same_but_text l result.
Proof.
  induction l as [|x rest IH]; intros result H.
  - injection H as <-. constructor.
  - simpl in H. unfold normalize at 1 in H.
    destruct (text x) as [a|]; [|discriminate].
    fold (traverse normalize rest) in H.
    destruct (traverse normalize rest) as [ys|]; [|discriminate].
    injection H as <-. constructor; [|apply IH; reflexivity].
    repeat split.
Qed.

Lemma same_but_text_refl (l : list Timecode) : Forall2 same_but_text l l.
Proof. induction l; constructor; [repeat split | assumption]. Qed.

(** What a call does to the state: nothing, or a new result list made from
    the items of the call alone. *)
Lemma invoke_cases (call : FunctionCall) (s : AppState) :
  (snd (invoke call s) = s /\ forall s0, snd (invoke call s0) = s0)
  \/ exists result,
       Forall2 same_but_text (timecodes (callArgs call)) result
       /\ forall s0,
            invoke call s0 =
            (Returned tt, setTimecodeList (Some result) s0).
Proof.
  unfold invoke, js_get. cbn [assoc handlers].
  destruct (String.eqb "set_timecodes" (callName call)).
  { unfold setTimecodes.
    destruct (traverse normalize (timecodes (callArgs call))) as [result|]
      eqn:Ht.
    - right. exists result.
      split; [exact (traverse_normalize_fields _ _ Ht) | reflexivity].
    - left. split; reflexivity. }
  destruct (String.eqb "set_timecodes_with_objects" (callName call)).
  { unfold setTimecodes.
    destruct (traverse normalize (timecodes (callArgs call))) as [result|]
      eqn:Ht.
    - right. exists result.
      split; [exact (traverse_normalize_fields _ _ Ht) | reflexivity].
    - left. split; reflexivity. }
  destruct (String.eqb "set_timecodes_with_numeric_values" (callName call)).
  { right. exists (timecodes (callArgs call)).
    split; [apply same_but_text_refl | reflexivity]. }
  left. destruct (assoc (callName call) object_prototype);
    split; reflexivity.
Qed.

Lemma dispatch_cases (resp : Response) (s : AppState) :
  snd (dispatch resp s) = s
  \/ exists result,
       dispatch resp s = (Returned tt, setTimecodeList (Some result) s).
Proof.
  unfold dispatch. destruct (first_call resp) as [call|]; [|left; reflexivity].
  destruct (invoke_cases call s) as [[H _] | [result [_ H]]].
  - left. exact H.
  - right. exists result. apply H.
Qed.

Lemma onModeSelect_request_state (modes : list (string * ModeConfig))
    (mode : ModeKey) (s : AppState) :
  snd (onModeSelect_request modes mode s) =
  setChartLabel (chartPrompt s)
    (setIsLoading true (setActiveMode (Some mode) (setSearchQuery "" s))).
Proof.
  unfold onModeSelect_request.
  destruct (promptText modes mode s); reflexivity.
Qed.


(** X8.  Without a stored file, which is the case until an upload has
    succeeded, [onModeSelect] sends nothing and throws; the result list is
    as before and [isLoading] stays set. *)
Theorem onModeSelect_without_file (modes : list (string * ModeConfig))
    (mode : ModeKey) (r : reply Response) (s : AppState) :
  file s = None ->
  exists e s',
    onModeSelect modes mode r s = (Thrown e, s', [])
    /\ isLoading s' = true
    /\ timecodeList s' = timecodeList s.
Proof.
  intros Hf. unfold onModeSelect, onModeSelect_request. rewrite Hf.
  destruct (promptText modes mode s) as [p|e|] eqn:Hp.
  - eexists. eexists. split; [reflexivity|]. split; reflexivity.
  - eexists. eexists. split; [reflexivity|]. split; reflexivity.
  - exfalso. unfold promptText in Hp.
    destruct (assoc mode modes) as [cfg|]; [|discriminate].
    destruct (prompt cfg); [discriminate|].
    destruct (subModes cfg); discriminate.
Qed.

Lemma onModeSelect_without_file_witness :
  exists e s',
    onModeSelect sample_modes "Paragraph"
      (Resolves (mkResponse
                   (Some [mkCall "set_timecodes" (mkArgs [escaped_item])])))
      (snd (fst (uploadVideo sample_url [clip]
                   (mkRemote (Resolves stored_clip) [Resolves FAILED])
                   sample_state))) =
    (Thrown e, s', [])
    /\ isLoading s' = true
    /\ timecodeList s' =
       timecodeList
         (snd (fst (uploadVideo sample_url [clip]
                      (mkRemote (Resolves stored_clip) [Resolves FAILED])
                      sample_state))).
Proof.
  apply (onModeSelect_without_file sample_modes "Paragraph"
           (Resolves (mkResponse
                        (Some [mkCall "set_timecodes"
                                      (mkArgs [escaped_item])])))
           (snd (fst (uploadVideo sample_url [clip]
                        (mkRemote (Resolves stored_clip) [Resolves FAILED])
                        sample_state)))).
  reflexivity.
Defined.

(** X9.  [onModeSelect] never writes the upload state or the inputs: the
    stored file, the video URL, [videoError], [isLoadingVideo], the
    selected mode, the sub-mode and both prompt texts are as before,
    however the call ends.  It always records the mode as active, empties
    the search query, and labels the chart with the text of the custom
    field, also when a preset sub-mode supplied the prompt. *)
Theorem onModeSelect_frame (modes : list (string * ModeConfig))
    (mode : ModeKey) (r : reply Response) (s : AppState) :
  let s' := snd (fst (onModeSelect modes mode r s)) in
  file s' = file s
  /\ vidUrl s' = vidUrl s
  /\ videoError s' = videoError s
  /\ isLoadingVideo s' = isLoadingVideo s
  /\ selectedMode s' = selectedMode s
  /\ chartMode s' = chartMode s
  /\ customPrompt s' = customPrompt s
  /\ chartPrompt s' = chartPrompt s
  /\ activeMode s' = Some mode
  /\ searchQuery s' = ""
  /\ chartLabel s' = chartPrompt s.
Proof.
  cbv zeta. unfold onModeSelect.
  pose proof (onModeSelect_request_state modes mode s) as Hs1.
  destruct (onModeSelect_request modes mode s) as [o s1]. cbn [snd] in Hs1.
  destruct o as [request|e|]; cbn [fst snd];
    [|rewrite Hs1; repeat split ..].
  unfold onModeSelect_resume. destruct r as [resp|];
    [|cbn [fst snd]; rewrite Hs1; repeat split].
  destruct (dispatch_cases resp s1) as [H | [result H]].
  - destruct (dispatch resp s1) as [o s2]. cbn [snd] in H. subst s2.
    destruct o; cbn [fst snd]; rewrite Hs1; repeat split.
  - rewrite H. cbn [fst snd]. rewrite Hs1. repeat split.
Qed.

(** X10.  One call of [onModeSelect] sends at most one request.  It sends
    one exactly when the mode is in the table and a file is stored; the
    request then carries the compiled prompt, the three declared tools and
    the MIME type and URI of the stored file, whatever the reply will
    be. *)
Theorem onModeSelect_requests (modes : list (string * ModeConfig))
    (mode : ModeKey) (r : reply Response) (s : AppState) :
  snd (onModeSelect modes mode r s) =
  match promptText modes mode s, file s with
  | Returned p, Some g =>
      [ModelsGenerateContent p
         [ "set_timecodes"; "set_timecodes_with_objects";
           "set_timecodes_with_numeric_values" ]
         (mimeType g) (uri g)]
  | _, _ => []
  end.
Proof.
  unfold onModeSelect, onModeSelect_request.
  destruct (promptText modes mode s) as [p|e|]; [|reflexivity ..].
  unfold generateContent. destruct (file s) as [g|]; [|reflexivity].
  destruct (onModeSelect_resume r _) as [o s2]. reflexivity.
Qed.

(** X11.  A call of a declared tool that returns replaces the result list
    wholesale: the new list has one item per item of the call, in order,
    with the time, the objects and the value of each kept, and it is the
    same whatever list was stored before. *)
Theorem declared_tool_replaces_results (call : FunctionCall)
    (rest : list FunctionCall) (s s' : AppState) :
  In (callName call) declared_tools ->
  dispatch (mkResponse (Some (call :: rest))) s = (Returned tt, s') ->
  exists result,
    s' = setTimecodeList (Some result) s
    /\ Forall2 same_but_text (timecodes (callArgs call)) result
    /\ forall previous,
         dispatch (mkResponse (Some (call :: rest)))
                  (setTimecodeList previous s) =
         (Returned tt, s').
Proof.
  intros Hin H.
  change (invoke call s = (Returned tt, s')) in H.
  destruct (invoke_cases call s) as [[_ Hsame] | [result [Hfields Hinv]]].
  - exfalso.
    apply declared_tools_cases in Hin.
    destruct Hin as [Hn | [Hn | Hn]].
    + rewrite (invoke_setTimecodes call s (or_introl Hn)) in H.
      unfold setTimecodes in H.
      destruct (traverse normalize (timecodes (callArgs call))) eqn:Ht;
        [|discriminate].
      specialize (Hsame (setTimecodeList None s)).
      rewrite (invoke_setTimecodes call _ (or_introl Hn)) in Hsame.
      unfold setTimecodes in Hsame. rewrite Ht in Hsame.
      discriminate Hsame.
    + rewrite (invoke_setTimecodes call s (or_intror Hn)) in H.
      unfold setTimecodes in H.
      destruct (traverse normalize (timecodes (callArgs call))) eqn:Ht;
        [|discriminate].
      specialize (Hsame (setTimecodeList None s)).
      rewrite (invoke_setTimecodes call _ (or_intror Hn)) in Hsame.
      unfold setTimecodes in Hsame. rewrite Ht in Hsame.
      discriminate Hsame.
    + specialize (Hsame (setTimecodeList None s)).
      rewrite (invoke_numeric_values call _ Hn) in Hsame.
      discriminate Hsame.
  - exists result. rewrite Hinv in H. injection H as <-.
    split; [reflexivity|]. split; [exact Hfields|].
    intros previous.
    change (invoke call (setTimecodeList previous s) =
            (Returned tt, setTimecodeList (Some result) s)).
    rewrite Hinv. reflexivity.
Qed.

Lemma declared_tool_replaces_results_witness :
  exists result,
    setTimecodeList (Some [valued_item]) sample_state =
    setTimecodeList (Some result) sample_state
    /\ Forall2 same_but_text [valued_item] result
    /\ forall previous,
         dispatch
           (mkResponse
              (Some [mkCall "set_timecodes_with_numeric_values"
                            (mkArgs [valued_item])]))
           (setTimecodeList previous sample_state) =
         (Returned tt, setTimecodeList (Some [valued_item]) sample_state).
Proof.
  apply (declared_tool_replaces_results
           (mkCall "set_timecodes_with_numeric_values" (mkArgs [valued_item]))
           [] sample_state
           (setTimecodeList (Some [valued_item]) sample_state)).
  - right. right. left. reflexivity.
  - reflexivity.
Defined.

(** X12.  Under any schedule of drops and answers, a generation request
    names a file that an upload stored in a state other than [PROCESSING]
    and [FAILED]: no request is ever sent for a file that is still being
    processed or whose processing failed. *)
Theorem generation_names_ready_file (modes : list (string * ModeConfig))
    (createObjectURL : File -> string) (sched : list action) (s : AppState)
    (mode : ModeKey) (r : reply Response) (request : event) :
  ready_handle (file s) ->
  In request
     (snd (onModeSelect modes mode r
             (app (exec createObjectURL sched (boot s))))) ->
  exists p g,
    request =
    ModelsGenerateContent p declared_tools (mimeType g) (uri g)
    /\ file (app (exec createObjectURL sched (boot s))) = Some g
    /\ is_ready (state g) = true.
Proof.
  intros Hs Hin.
  assert (Hready : forall sched0 sys,
             ready_handle (file (app sys)) ->
             ready_handle (file (app (exec createObjectURL sched0 sys)))).
  { induction sched0 as [|a rest IH]; intros sys H; [exact H|].
    change (exec createObjectURL (a :: rest) sys)
      with (exec createObjectURL rest (step createObjectURL a sys)).
    apply IH. apply step_keeps_ready. exact H. }
  specialize (Hready sched (boot s) Hs).
  set (now := app (exec createObjectURL sched (boot s))) in *.
  unfold onModeSelect in Hin.
  destruct (onModeSelect_request modes mode now) as [o s1] eqn:Hreq.
  destruct o as [req|e|]; [|destruct Hin ..].
  destruct (onModeSelect_resume r s1) as [o2 s2].
  destruct Hin as [<- | []].
  assert (Hfst : fst (onModeSelect_request modes mode now) = Returned req)
    by (rewrite Hreq; reflexivity).
  destruct (onModeSelect_request_file modes mode now req Hfst)
    as [p [g [Hg Hr]]].
  exists p, g. split; [exact Hr|]. split; [exact Hg|].
  rewrite Hg in Hready. exact Hready.
Qed.

Lemma generation_names_ready_file_witness :
  exists p g,
    ModelsGenerateContent "Describe the video in a paragraph."
      declared_tools "video/mp4" "https://files.example/talk" =
    ModelsGenerateContent p declared_tools (mimeType g) (uri g)
    /\ file (app (exec sample_url superseding_upload (boot sample_state))) =
       Some g
    /\ is_ready (state g) = true.
Proof.
  apply (generation_names_ready_file sample_modes sample_url
           superseding_upload sample_state "Paragraph" Rejects
           (ModelsGenerateContent "Describe the video in a paragraph."
              declared_tools "video/mp4" "https://files.example/talk")).
  - exact I.
  - left. reflexivity.
Defined.

(** ** The Chart prompt from the first page on *)

Lemma assoc_of_key {A} (key : string) (props : list (string * A)) :
  In key (keys props) -> exists v, assoc key props = Some v.
Proof.
  induction props as [|[k v] rest IH]; intros Hin; [destruct Hin|].
  simpl. destruct (String.eqb k key) eqn:Hk; [exists v; reflexivity|].
  destruct Hin as [Hin | Hin].
  - simpl in Hin. subst k. rewrite String.eqb_refl in Hk. discriminate.
  - exact (IH Hin).
Qed.

Lemma chart_controls_known (sm : list (string * string))
    (cs : list ChartControl) :
  offered sm cs ->
  forall s, chart_mode_known sm s -> chart_mode_known sm (chart_controls cs s).
Proof.
  induction 1 as [|c rest Hc Hrest IH]; intros s Hs; [exact Hs|].
  change (chart_controls (c :: rest) s)
    with (chart_controls rest (chart_control c s)).
  apply IH. destruct c as [m|v|].
  - exists m. split; [reflexivity | right; exact Hc].
  - exact Hs.
  - exists "Custom". split; [reflexivity | left; reflexivity].
Qed.

Lemma chartInput_known (sm : list (string * string)) (s : AppState) :
  selectedMode s = "Chart" ->
  chart_mode_known sm s ->
  exists x, chartInput sm s = Str x.
Proof.
  intros Hsel [m [Hm Hknown]].
  unfold chartInput, isCustomChartMode, isChartMode.
  rewrite Hsel, Hm. cbn [is_Custom property_key].
  destruct (String.eqb m "Custom") eqn:Hc.
  - exists (chartPrompt s). reflexivity.
  - destruct Hknown as [-> | Hin]; [discriminate Hc|].
    destruct (assoc_of_key m sm Hin) as [v Hv].
    exists v. simpl. rewrite (js_get_own _ _ _ Hv). reflexivity.
Qed.

(** X13.  From the first page on, in Chart mode, the prompt function is
    always handed a string: the fragment of a sub-mode or the custom text,
    never [undefined].  This holds when the Chart mode has at least one
    sub-mode, for every sequence of clicks on the sub-mode buttons that
    are shown, of changes of the custom text and of focuses of its
    field. *)
Theorem chart_prompt_gets_a_string (modes : list (string * ModeConfig))
    (f : JsValue -> string) (sm : list (string * string))
    (cs : list ChartControl) :
  assoc "Chart" modes = Some (mkMode (PromptFn f) (Some sm)) ->
  sm <> [] ->
  offered sm cs ->
  exists x,
    promptText modes "Chart"
      (chart_controls cs (setSelectedMode "Chart" (initial_state modes))) =
    Returned (f (Str x)).
Proof.
  intros Hchart Hne Hoff.
  rewrite (promptText_Chart modes f sm Hchart).
  assert (Hinit : chart_mode_known sm
                    (setSelectedMode "Chart" (initial_state modes))).
  { unfold chart_mode_known, initial_state, chartModes.
    cbn [setSelectedMode chartMode]. rewrite Hchart. cbn [subModes].
    destruct sm as [|[k v] rest]; [contradiction Hne; reflexivity|].
    exists k. split; [reflexivity|]. right. left. reflexivity. }
  destruct (chartInput_known sm
              (chart_controls cs
                 (setSelectedMode "Chart" (initial_state modes))))
    as [x Hx].
  - rewrite chart_controls_selectedMode. reflexivity.
  - exact (chart_controls_known sm cs Hoff _ Hinit).
  - exists x. rewrite Hx. reflexivity.
Qed.

Lemma chart_prompt_gets_a_string_witness :
  exists x,
    promptText sample_modes "Chart"
      (chart_controls [ChangeText "count the dogs"; ClickSubMode "Importance"]
         (setSelectedMode "Chart" (initial_state sample_modes))) =
    Returned
      (match Str x with
       | Str y => ("Chart the video: " ++ y)%string
       | _ => "Chart the video: undefined"
       end).
Proof.
  apply (chart_prompt_gets_a_string sample_modes
           (fun v => match v with
                     | Str y => ("Chart the video: " ++ y)%string
                     | _ => "Chart the video: undefined"
                     end)
           [ ("Excitement", "rate the excitement of each scene");
             ("Importance", "rate the importance of each scene") ]
           [ChangeText "count the dogs"; ClickSubMode "Importance"]).
  - reflexivity.
  - discriminate.
  - constructor; [exact I|].
    constructor; [right; left; reflexivity|]. constructor.
Defined.

(** ** The search filter *)

Lemma onModeSelect_searchQuery (modes : list (string * ModeConfig))
    (mode : ModeKey) (r : reply Response) (s : AppState) :
  searchQuery (snd (fst (onModeSelect modes mode r s))) = "".
Proof.
  unfold onModeSelect.
  pose proof (onModeSelect_request_state modes mode s) as Hs1.
  destruct (onModeSelect_request modes mode s) as [o s1]. cbn [snd] in Hs1.
  destruct o as [request|e|]; cbn [fst snd]; [|rewrite Hs1; reflexivity ..].
  unfold onModeSelect_resume. destruct r as [resp|];
    [|cbn [fst snd]; rewrite Hs1; reflexivity].
  destruct (dispatch_cases resp s1) as [H | [result H]].
  - destruct (dispatch resp s1) as [o s2]. cbn [snd] in H. subst s2.
    destruct o; cbn [fst snd]; rewrite Hs1; reflexivity.
  - rewrite H. cbn [fst snd]. rewrite Hs1. reflexivity.
Qed.

Section SearchFacts.

Variable toLowerCase : string -> string.
Variable trim : string -> string.
Variable numberToString : number -> string.

(** X14.  The filtered list is made of items of the result list and is no
    longer than it.  With a query that trims to the empty string it is the
    whole result list; with any other query an item that has neither text
    nor objects nor value is never shown. *)
Theorem search_shows_matching_items (s : AppState) :
  match timecodeList s,
        filteredTimecodeList toLowerCase trim numberToString s with
  | Some l, Some shown =>
      incl shown l
      /\ List.length shown <= List.length l
      /\ (trim (searchQuery s) = "" -> shown = l)
      /\ (trim (searchQuery s) <> "" ->
          Forall (fun t => text t <> None \/ objects t <> None
                           \/ value t <> None) shown)
  | None, None => True
  | _, _ => False
  end.
Proof.
  unfold filteredTimecodeList.
  destruct (timecodeList s) as [l|]; [|exact I].
  destruct (String.eqb (trim (searchQuery s)) "") eqn:Hq.
  - apply String.eqb_eq in Hq.
    split; [apply incl_refl|]. split; [apply Nat.le_refl|].
    split; [reflexivity|]. intros H. contradiction.
  - apply String.eqb_neq in Hq.
    split; [apply incl_filter|]. split; [apply filter_length_le|].
    split; [intros H; contradiction|].
    intros _. apply Forall_forall. intros t Ht.
    apply filter_In in Ht. destruct Ht as [_ Hm].
    unfold matches_query in Hm.
    destruct (text t); [left; discriminate|].
    destruct (objects t); [right; left; discriminate|].
    destruct (value t); [right; right; discriminate|].
    discriminate Hm.
Qed.


End SearchFacts.


Example search_sample :
  filteredTimecodeList sample_toLowerCase sample_trim sample_numberToString
    (setSearchQuery "DOG"
       (setTimecodeList (Some [captioned_item; valued_item; bare_item])
                        sample_state)) =
  Some [captioned_item].
Proof. reflexivity. Qed.

(** ** The export *)

Lemma contains_char_append (c : ascii) (a b : string) :
  contains_char c (a ++ b) = contains_char c a || contains_char c b.
Proof.
  induction a as [|d rest IH]; [reflexivity|].
  simpl. rewrite IH. apply orb_assoc.
Qed.

Lemma double_quotes_closed_injective (a : string) :
  forall b,
    (double_quotes a ++ String quote EmptyString)%string =
    (double_quotes b ++ String quote EmptyString)%string ->
    a = b.
Proof.
  induction a as [|c a' IH]; intros [|d b'] H; simpl in H.
  - reflexivity.
  - exfalso. destruct (Ascii.eqb d quote) eqn:Hd; simpl in H.
    + discriminate H.
    + injection H as Hq _. subst d. rewrite Ascii.eqb_refl in Hd.
      discriminate Hd.
  - exfalso. destruct (Ascii.eqb c quote) eqn:Hc; simpl in H.
    + discriminate H.
    + injection H as Hq _. subst c. rewrite Ascii.eqb_refl in Hc.
      discriminate Hc.
  - destruct (Ascii.eqb c quote) eqn:Hc; destruct (Ascii.eqb d quote) eqn:Hd;
      simpl in H.
    + apply Ascii.eqb_eq in Hc. apply Ascii.eqb_eq in Hd. subst c d.
      injection H as H. rewrite (IH b' H). reflexivity.
    + exfalso. injection H as Hq _. subst d. rewrite Ascii.eqb_refl in Hd.
      discriminate Hd.
    + exfalso. injection H as Hq _. subst c. rewrite Ascii.eqb_refl in Hc.
      discriminate Hc.
    + injection H as -> H. rewrite (IH b' H). reflexivity.
Qed.

(** X16.  The CSV quoting loses nothing: two texts give the same quoted
    field only when they are the same text, whatever quotes, commas and
    line feeds they contain. *)
Theorem sanitizeCsv_injective (a b : string) :
  sanitizeCsv a = sanitizeCsv b <-> a = b.
Proof.
  split; [|intros ->; reflexivity].
  unfold sanitizeCsv. intros H. injection H as H.
  exact (double_quotes_closed_injective a b H).
Qed.

Lemma break_lines_no_newline (s : string) :
  contains_char newline (break_lines s) = false.
Proof.
  induction s as [|c rest IH]; [reflexivity|].
  simpl. destruct (Ascii.eqb c newline) eqn:Hc.
  - simpl. exact IH.
  - simpl. rewrite Hc. exact IH.
Qed.

Lemma escape_pipes_escaped (s : string) :
  forall b, pipes_escaped b (escape_pipes s) = true.
Proof.
  induction s as [|c rest IH]; intros b; [reflexivity|].
  simpl. destruct (Ascii.eqb c pipe) eqn:Hc.
  - simpl. apply IH.
  - simpl. rewrite Hc. apply IH.
Qed.

Lemma break_lines_escaped (s : string) :
  forall b, pipes_escaped b s = true -> pipes_escaped b (break_lines s) = true.
Proof.
  induction s as [|c rest IH]; intros b H; [reflexivity|].
  simpl in H. apply andb_true_iff in H. destruct H as [H1 H2].
  simpl. destruct (Ascii.eqb c newline) eqn:Hc.
  - apply Ascii.eqb_eq in Hc. subst c. simpl. apply IH. exact H2.
  - simpl. rewrite H1. apply IH. exact H2.
Qed.

(** X17.  A text cleaned for the Markdown export holds no line feed, and
    every pipe in it stands right after a backslash; so it cannot end the
    line or the cell of the table it is written into. *)
Theorem sanitizeMd_stays_in_cell (t : string) :
  contains_char newline (sanitizeMd t) = false
  /\ pipes_escaped false (sanitizeMd t) = true.
Proof.
  unfold sanitizeMd. split.
  - apply break_lines_no_newline.
  - apply break_lines_escaped. apply escape_pipes_escaped.
Qed.

Lemma map_rows_returns {A} (f : A -> outcome string) (l : list A) :
  Forall (fun x => exists row, f x = Returned row) l ->
  exists rows, map_rows f l = Returned rows.
Proof.
  induction 1 as [|x rest [row Hx] Hrest [rows IH]].
  - exists []. reflexivity.
  - exists (row :: rows). simpl. rewrite Hx, IH. reflexivity.
Qed.

Lemma map_rows_throws {A} (f : A -> outcome string) (l : list A) :
  Forall (fun x => f x <> Unsettled) l ->
  (exists x msg, In x l /\ f x = Thrown (TypeError msg)) ->
  Forall (fun x => forall e, f x = Thrown e -> exists msg, e = TypeError msg)
         l ->
  exists msg, map_rows f l = Thrown (TypeError msg).
Proof.
  induction l as [|x rest IH]; intros Hsettled [y [msg [Hin Hy]]] Htype;
    [destruct Hin|].
  inversion Hsettled as [|? ? Hx Hrest]; subst.
  inversion Htype as [|? ? Hxt Hrestt]; subst.
  simpl. destruct (f x) as [row|e|] eqn:Hfx.
  - destruct Hin as [-> | Hin]; [rewrite Hfx in Hy; discriminate|].
    destruct (IH Hrest (ex_intro _ y (ex_intro _ msg (conj Hin Hy))) Hrestt)
      as [msg' Hm].
    rewrite Hm. exists msg'. reflexivity.
  - destruct (Hxt e eq_refl) as [msg' ->]. exists msg'. reflexivity.
  - contradiction Hx. reflexivity.
Qed.

Lemma traverse_normalize_texts (l : list Timecode) :
  forall result,
    traverse normalize l = Some result ->
    Forall (fun t => text t <> None) result.
Proof.
  induction l as [|x rest IH]; intros result H.
  - injection H as <-. constructor.
  - simpl in H. unfold normalize at 1 in H.
    destruct (text x) as [a|]; [|discriminate].
    fold (traverse normalize rest) in H.
    destruct (traverse normalize rest) as [ys|]; [|discriminate].
    injection H as <-. constructor; [discriminate | apply IH; reflexivity].
Qed.

Section ExportFacts.

Variable toLowerCase : string -> string.
Variable numberToString : number -> string.
Variable isWhiteSpace : ascii -> bool.

Lemma hyphenate_no_slash (s : string) :
  contains_char slash (hyphenate isWhiteSpace s) = false.
Proof.
  induction s as [|c rest IH]; [reflexivity|].
  simpl. destruct (isWhiteSpace c || Ascii.eqb c slash) eqn:Hc.
  - simpl. exact IH.
  - apply orb_false_iff in Hc. destruct Hc as [_ Hc].
    simpl. rewrite Hc. exact IH.
Qed.

(** X18.  The name of the download holds no slash, whatever the name of the
    active mode: the name of the mode [A/V captions], say, cannot make the
    download name a path. *)
Theorem fileName_has_no_slash (activeMode : string) (format : Format) :
  contains_char slash (fileName toLowerCase isWhiteSpace activeMode format) =
  false.
Proof.
  unfold fileName. rewrite !contains_char_append, hyphenate_no_slash.
  destruct format; reflexivity.
Qed.

Lemma text_rows_return (l : list Timecode) :
  Forall (fun t => text t <> None) l ->
  (exists rows, map_rows csv_text_row l = Returned rows)
  /\ (exists rows, map_rows md_text_row l = Returned rows).
Proof.
  intros H. split; apply map_rows_returns;
    (eapply Forall_impl; [|exact H]); intros t Ht;
    [unfold csv_text_row | unfold md_text_row];
    (destruct (text t) eqn:E; [eexists; reflexivity | exfalso; exact (Ht E)]).
Qed.

(** X19.  After a call of [set_timecodes] or [set_timecodes_with_objects]
    that returned, the export in a list mode (any active mode other than
    [Table] and [Chart]) offers a download in either format: every stored
    item carries the text that the rows read. *)
Theorem list_export_after_setTimecodes (call : FunctionCall)
    (rest : list FunctionCall) (s s' : AppState) (mode : string)
    (format : Format) :
  callName call = "set_timecodes"
  \/ callName call = "set_timecodes_with_objects" ->
  dispatch (mkResponse (Some (call :: rest))) s = (Returned tt, s') ->
  activeMode s = Some mode ->
  mode <> "" -> mode <> "Table" -> mode <> "Chart" ->
  exists content,
    handleExport toLowerCase numberToString isWhiteSpace format s' =
    Returned
      (Some (mkDownload (fileName toLowerCase isWhiteSpace mode format)
                        (mimeTypeOf format) content)).
Proof.
  intros Hname Hd Hmode Hne Htable Hchart.
  change (invoke call s = (Returned tt, s')) in Hd.
  rewrite (invoke_setTimecodes call s Hname) in Hd.
  unfold setTimecodes in Hd.
  destruct (traverse normalize (timecodes (callArgs call))) as [result|]
    eqn:Ht; [|discriminate].
  injection Hd as <-.
  destruct (text_rows_return result (traverse_normalize_texts _ _ Ht))
    as [[rows1 Hcsv] [rows2 Hmd]].
  apply String.eqb_neq in Hne, Htable, Hchart.
  unfold handleExport. cbn [timecodeList activeMode setTimecodeList].
  rewrite Hmode, Hne.
  destruct format.
  - unfold csv_content. rewrite Htable, Hchart, Hcsv.
    eexists. reflexivity.
  - unfold md_content. rewrite Htable, Hchart, Hmd.
    eexists. reflexivity.
Qed.

(** X20.  In [Table] mode the export throws a [TypeError], and offers no
    download, as soon as one stored item lacks its text or its objects, in
    either format; the items stored by a call of [set_timecodes] carry no
    objects. *)
Theorem table_export_needs_objects (s : AppState) (l : list Timecode)
    (format : Format) :
  activeMode s = Some "Table" ->
  timecodeList s = Some l ->
  (exists item, In item l /\ (text item = None \/ objects item = None)) ->
  exists msg,
    handleExport toLowerCase numberToString isWhiteSpace format s =
    Thrown (TypeError msg).
Proof.
  intros Hmode Hl [item [Hin Hlack]].
  assert (Hcsv : exists msg, map_rows csv_table_row l = Thrown (TypeError msg)).
  { apply map_rows_throws.
    - apply Forall_forall. intros t _. unfold csv_table_row.
      destruct (text t); [destruct (objects t)|]; discriminate.
    - exists item. unfold csv_table_row.
      destruct Hlack as [Ht | Ho].
      + rewrite Ht. eexists. split; [exact Hin | reflexivity].
      + rewrite Ho. destruct (text item);
          eexists; (split; [exact Hin | reflexivity]).
    - apply Forall_forall. intros t _ e. unfold csv_table_row.
      destruct (text t); [destruct (objects t)|]; intros H;
        try discriminate H; injection H as <-; eexists; reflexivity. }
  assert (Hmd : exists msg, map_rows md_table_row l = Thrown (TypeError msg)).
  { apply map_rows_throws.
    - apply Forall_forall. intros t _. unfold md_table_row.
      destruct (text t); [destruct (objects t)|]; discriminate.
    - exists item. unfold md_table_row.
      destruct Hlack as [Ht | Ho].
      + rewrite Ht. eexists. split; [exact Hin | reflexivity].
      + rewrite Ho. destruct (text item);
          eexists; (split; [exact Hin | reflexivity]).
    - apply Forall_forall. intros t _ e. unfold md_table_row.
      destruct (text t); [destruct (objects t)|]; intros H;
        try discriminate H; injection H as <-; eexists; reflexivity. }
  unfold handleExport. rewrite Hl, Hmode. cbn [String.eqb].
  destruct format.
  - destruct Hcsv as [msg Hcsv]. exists msg.
    unfold csv_content. cbv iota beta. simpl String.eqb. cbv iota beta.
    rewrite Hcsv. reflexivity.
  - destruct Hmd as [msg Hmd]. exists msg.
    unfold md_content. simpl String.eqb. cbv iota beta zeta.
    rewrite Hmd. reflexivity.
Qed.

(** X21.  In [Chart] mode the export never throws: it offers a download in
    either format for every result list, with an item that has no value
    written as an empty CSV cell and as [undefined] in Markdown. *)
Theorem chart_export_never_throws (s : AppState) (l : list Timecode)
    (format : Format) :
  activeMode s = Some "Chart" ->
  timecodeList s = Some l ->
  exists content,
    handleExport toLowerCase numberToString isWhiteSpace format s =
    Returned
      (Some (mkDownload (fileName toLowerCase isWhiteSpace "Chart" format)
                        (mimeTypeOf format) content)).
Proof.
  intros Hmode Hl.
  assert (Hcsv : exists rows,
             map_rows (csv_chart_row numberToString) l = Returned rows).
  { apply map_rows_returns. apply Forall_forall. intros t _.
    eexists. reflexivity. }
  assert (Hmd : exists rows,
             map_rows (md_chart_row numberToString) l = Returned rows).
  { apply map_rows_returns. apply Forall_forall. intros t _.
    eexists. reflexivity. }
  unfold handleExport. rewrite Hl, Hmode.
  destruct format.
  - destruct Hcsv as [rows Hcsv].
    unfold csv_content. simpl String.eqb. cbv iota beta.
    rewrite Hcsv. eexists. reflexivity.
  - destruct Hmd as [rows Hmd].
    unfold md_content. simpl String.eqb. cbv iota beta zeta.
    rewrite Hmd. eexists. reflexivity.
Qed.

End ExportFacts.

Lemma list_export_after_setTimecodes_witness :
  exists content,
    handleExport sample_toLowerCase sample_numberToString sample_isWhiteSpace
      Csv
      (setTimecodeList
         (Some [mkTimecode "00:01" (Some "A'B") None None])
         (setActiveMode (Some "Key moments") sample_state)) =
    Returned
      (Some (mkDownload
               (fileName sample_toLowerCase sample_isWhiteSpace "Key moments"
                         Csv)
               (mimeTypeOf Csv) content)).
Proof.
  apply (list_export_after_setTimecodes sample_toLowerCase
           sample_numberToString sample_isWhiteSpace
           (mkCall "set_timecodes" (mkArgs [escaped_item])) []
           (setActiveMode (Some "Key moments") sample_state)
           (setTimecodeList
              (Some [mkTimecode "00:01" (Some "A'B") None None])
              (setActiveMode (Some "Key moments") sample_state))
           "Key moments" Csv);
    first [reflexivity | discriminate | left; reflexivity].
Defined.

Lemma table_export_needs_objects_witness :
  exists msg,
    handleExport sample_toLowerCase sample_numberToString sample_isWhiteSpace
      Md
      (setTimecodeList (Some [captioned_item; escaped_item])
                       (setActiveMode (Some "Table") sample_state)) =
    Thrown (TypeError msg).
Proof.
  apply (table_export_needs_objects sample_toLowerCase sample_numberToString
           sample_isWhiteSpace
           (setTimecodeList (Some [captioned_item; escaped_item])
                            (setActiveMode (Some "Table") sample_state))
           [captioned_item; escaped_item] Md).
  - reflexivity.
  - reflexivity.
  - exists escaped_item. split; [right; left; reflexivity|].
    right. reflexivity.
Defined.

Lemma chart_export_never_throws_witness :
  exists content,
    handleExport sample_toLowerCase sample_numberToString sample_isWhiteSpace
      Csv
      (setTimecodeList (Some [valued_item; bare_item])
                       (setActiveMode (Some "Chart") sample_state)) =
    Returned
      (Some (mkDownload
               (fileName sample_toLowerCase sample_isWhiteSpace "Chart" Csv)
               (mimeTypeOf Csv) content)).
Proof.
  apply (chart_export_never_throws sample_toLowerCase sample_numberToString
           sample_isWhiteSpace
           (setTimecodeList (Some [valued_item; bare_item])
                            (setActiveMode (Some "Chart") sample_state))
           [valued_item; bare_item] Csv); reflexivity.
Defined.

(** The exports of the sample items. *)
Example chart_csv_sample :
  handleExport sample_toLowerCase sample_numberToString sample_isWhiteSpace
    Csv
    (setTimecodeList (Some [valued_item; bare_item])
                     (setActiveMode (Some "Chart") sample_state)) =
  Returned
    (Some (mkDownload "chart-export.csv" "text/csv;charset=utf-8;"
             ("Time,Value" ++ nl ++ "00:07,2" ++ nl ++ "00:09,")%string)).
Proof. reflexivity. Qed.

Example table_md_sample :
  handleExport sample_toLowerCase sample_numberToString sample_isWhiteSpace
    Md
    (setTimecodeList (Some [captioned_item])
                     (setActiveMode (Some "Table") sample_state)) =
  Returned
    (Some (mkDownload "table-export.md" "text/markdown;charset=utf-8;"
             ("# Table Export" ++ nl ++ nl
              ++ "| Time | Description | Objects |" ++ nl
              ++ "| --- | --- | --- |" ++ nl
              ++ "| 00:05 | A dog \| barks | dog, lawn |")%string)).
Proof. reflexivity. Qed.

Example slashed_mode_name_sample :
  fileName sample_toLowerCase sample_isWhiteSpace "A/V captions" Md =
  "a-v-captions-export.md".
Proof. reflexivity. Qed.

(** ** When a generation can be asked for *)


